(** * Meal-planning pipeline: a shallow embedding of the Python sources

    The development follows the source files one module at a time:
    - [Py]        : the fragment of Python the sources rely on (dynamic values,
                    truthiness, exceptions, string helpers);
    - [Config]    : configuration.py;
    - [MealUtils] : meal_utils.py and the report template of meal_prompts.py;
    - [Graph]     : state.py and graph.py (the four stages and their wiring).

    The language model, the search back ends, [json.loads], [format_sources]
    and the process environment are collaborators outside the sources; they
    are gathered in the record [World] and every theorem quantifies over it. *)

From Stdlib Require Import String Ascii List ZArith Bool Lia DecimalString Permutation.
Import ListNotations.
Set Warnings "-register-all".
Open Scope list_scope.
Open Scope string_scope.

(* ===================================================================== *)
(** * The Python fragment                                                 *)
(* ===================================================================== *)

Module Py.

(** ** Strings

    A Python [str] is modelled by [string]; a character stands for the code
    point of the same number (0..255). *)

(** The double-quote character, kept out of string literals. *)
Definition dq : string := String "034"%char EmptyString.

(** [str.isspace] on the code points below 256. *)
Definition is_space (c : ascii) : bool :=
  let n := nat_of_ascii c in
  ((9 <=? n)%nat && (n <=? 13)%nat) || ((28 <=? n)%nat && (n <=? 32)%nat)
  || (n =? 133)%nat || (n =? 160)%nat.

Fixpoint lstrip (s : string) : string :=
  match s with
  | String c s' => if is_space c then lstrip s' else s
  | EmptyString => EmptyString
  end.

(** [rstrip] keeps a character when something non-blank follows it. *)
Fixpoint rstrip (s : string) : string :=
  match s with
  | String c s' =>
      match rstrip s' with
      | EmptyString => if is_space c then EmptyString else String c EmptyString
      | r => String c r
      end
  | EmptyString => EmptyString
  end.

(** [s.strip()] *)
Definition strip (s : string) : string := rstrip (lstrip s).

(** [sep.join(parts)] on strings. *)
Definition join (sep : string) (parts : list string) : string :=
  String.concat sep parts.

(** [sub in s] for two strings. *)
Fixpoint str_contains (sub s : string) : bool :=
  String.prefix sub s ||
  match s with
  | String _ s' => str_contains sub s'
  | EmptyString => false
  end.

(** The one-character strings a [str] yields when iterated. *)
Fixpoint chars (s : string) : list string :=
  match s with
  | String c s' => String c EmptyString :: chars s'
  | EmptyString => []
  end.

Definition upper_char (c : ascii) : ascii :=
  let n := nat_of_ascii c in
  if (97 <=? n)%nat && (n <=? 122)%nat then ascii_of_nat (n - 32) else c.

(** [s.upper()] on ASCII letters (field names are ASCII identifiers). *)
Fixpoint upper (s : string) : string :=
  match s with
  | String c s' => String (upper_char c) (upper s')
  | EmptyString => EmptyString
  end.

(** Decimal rendering of a natural number, as an f-string renders an [int]. *)
Definition str_of_nat (n : nat) : string :=
  NilZero.string_of_uint (Nat.to_uint n).

(** [sub] occurs in [s]: the propositional reading of [sub in s]. *)
Definition occurs_in (sub s : string) : Prop :=
  exists before after, s = before ++ sub ++ after.

(** ** Dynamic values *)

(** A Python float: finite (sign, mantissa, binary exponent), a signed zero,
    an infinity or a NaN. Only its truth value is ever inspected. *)
Inductive pyfloat : Type :=
| FFinite (neg : bool) (m : positive) (e : Z)
| FZero (neg : bool)
| FInf (neg : bool)
| FNaN.

(** The values [json.loads] can build. A [dict] is kept as an association
    list in insertion order. *)
Inductive pyval : Type :=
| PNone
| PBool (b : bool)
| PInt (z : Z)
| PFloat (f : pyfloat)
| PStr (s : string)
| PList (l : list pyval)
| PDict (d : list (string * pyval)).

Definition type_name (v : pyval) : string :=
  match v with
  | PNone => "NoneType"
  | PBool _ => "bool"
  | PInt _ => "int"
  | PFloat _ => "float"
  | PStr _ => "str"
  | PList _ => "list"
  | PDict _ => "dict"
  end.

(** [bool(v)] *)
Definition truthy (v : pyval) : bool :=
  match v with
  | PNone => false
  | PBool b => b
  | PInt z => negb (z =? 0)%Z
  | PFloat (FZero _) => false
  | PFloat _ => true
  | PStr s => negb (s =? EmptyString)
  | PList l => match l with [] => false | _ => true end
  | PDict d => match d with [] => false | _ => true end
  end.

(** [isinstance(v, dict)] and [isinstance(v, list)] *)
Definition is_dict (v : pyval) : bool :=
  match v with PDict _ => true | _ => false end.

Definition is_list (v : pyval) : bool :=
  match v with PList _ => true | _ => false end.

Fixpoint lookup {A : Type} (k : string) (d : list (string * A)) : option A :=
  match d with
  | [] => None
  | (k', v) :: d' => if k' =? k then Some v else lookup k d'
  end.

Definition has_key {A : Type} (k : string) (d : list (string * A)) : bool :=
  match lookup k d with Some _ => true | None => false end.

(** ** Exceptions

    Only instances of [Exception] are modelled. [ExternalError] stands for
    any exception class of a collaborator that is not in the [ValueError]
    family (network, authentication, rate limit...). *)
Inductive exn_class : Type :=
| PyException
| ValueError
| JSONDecodeError
| TypeError
| KeyError
| IndexError
| AttributeError
| ExternalError (name : string).

(** An exception instance: its class and [str(e)]. *)
Record exn : Type := mk_exn { exn_cls : exn_class; exn_str : string }.

(** [issubclass(c, base)] *)
Definition subclass (c base : exn_class) : bool :=
  match base, c with
  | PyException, _ => true
  | ValueError, (ValueError | JSONDecodeError) => true
  | JSONDecodeError, JSONDecodeError => true
  | TypeError, TypeError => true
  | KeyError, KeyError => true
  | IndexError, IndexError => true
  | AttributeError, AttributeError => true
  | ExternalError n, ExternalError n' => n =? n'
  | _, _ => false
  end.

(** The outcome of running a piece of Python. *)
Inductive result (A : Type) : Type :=
| Ok (a : A)
| Raise (e : exn).
Arguments Ok {A} a.
Arguments Raise {A} e.

Definition bind {A B : Type} (r : result A) (k : A -> result B) : result B :=
  match r with
  | Ok a => k a
  | Raise e => Raise e
  end.

Definition raise {A : Type} (c : exn_class) (msg : string) : result A :=
  Raise (mk_exn c msg).

(** [try: body  except (classes) as e: handler e] *)
Definition try_except {A : Type} (body : result A) (classes : list exn_class)
    (handler : exn -> result A) : result A :=
  match body with
  | Ok a => Ok a
  | Raise e =>
      if existsb (subclass (exn_cls e)) classes then handler e else Raise e
  end.

Fixpoint mapM {A B : Type} (f : A -> result B) (l : list A) : result (list B) :=
  match l with
  | [] => Ok []
  | x :: l' =>
      bind (f x) (fun y => bind (mapM f l') (fun ys => Ok (y :: ys)))
  end.

(** [for x in l: body x], stopping at the first exception. *)
Fixpoint forM_ {A : Type} (body : A -> result unit) (l : list A) : result unit :=
  match l with
  | [] => Ok tt
  | x :: l' => bind (body x) (fun _ => forM_ body l')
  end.

(** [all(p x for x in l)]: stops at the first false or the first exception. *)
Fixpoint allM {A : Type} (p : A -> result bool) (l : list A) : result bool :=
  match l with
  | [] => Ok true
  | x :: l' => bind (p x) (fun b => if b then allM p l' else Ok false)
  end.

End Py.

Export Py.

Notation "x <- c1 ;; c2" := (bind c1 (fun x => c2))
  (at level 61, c1 at next level, right associativity).

(** ** Operations on dynamic values that may raise *)

Module PyOps.

(** [key in v] for a string [key]. *)
Definition py_contains (key : string) (v : pyval) : result bool :=
  match v with
  | PDict d => Ok (has_key key d)
  | PList l =>
      Ok (existsb (fun x => match x with PStr s => s =? key | _ => false end) l)
  | PStr s => Ok (str_contains key s)
  | _ =>
      raise TypeError
        ("argument of type '" ++ type_name v ++ "' is not iterable")
  end.

(** [v[key]] for a string [key]. *)
Definition py_getitem (v : pyval) (key : string) : result pyval :=
  match v with
  | PDict d =>
      match lookup key d with
      | Some x => Ok x
      | None => raise KeyError ("'" ++ key ++ "'")
      end
  | PList _ => raise TypeError "list indices must be integers or slices, not str"
  | PStr _ => raise TypeError "string indices must be integers, not 'str'"
  | _ => raise TypeError ("'" ++ type_name v ++ "' object is not subscriptable")
  end.

(** [d.get(key, default)] on a dictionary. *)
Definition dict_get (d : list (string * pyval)) (key : string) (default : pyval)
    : pyval :=
  match lookup key d with
  | Some x => x
  | None => default
  end.

(** [v.get(key, default)] *)
Definition py_get (v : pyval) (key : string) (default : pyval) : result pyval :=
  match v with
  | PDict d => Ok (dict_get d key default)
  | _ =>
      raise AttributeError
        ("'" ++ type_name v ++ "' object has no attribute 'get'")
  end.

(** The elements [for x in v] visits. *)
Definition py_iter (v : pyval) : result (list pyval) :=
  match v with
  | PList l => Ok l
  | PStr s => Ok (map PStr (chars s))
  | PDict d => Ok (map (fun kv => PStr (fst kv)) d)
  | _ => raise TypeError ("'" ++ type_name v ++ "' object is not iterable")
  end.

(** [l[-1]] *)
Definition py_last (l : list pyval) : result pyval :=
  match rev l with
  | x :: _ => Ok x
  | [] => raise IndexError "list index out of range"
  end.

End PyOps.

Export PyOps.

(* ===================================================================== *)
(** * configuration.py                                                    *)
(* ===================================================================== *)

Module Config.

Inductive SearchAPI : Type := PERPLEXITY | TAVILY.

(** A value held by a configuration field: anything a caller or the
    environment supplies, or a member of the [SearchAPI] enumeration. *)
Inductive cfgval : Type :=
| CVal (v : pyval)
| CEnum (a : SearchAPI).

(** [bool(v)]; enumeration members are true. *)
Definition cfg_truthy (v : cfgval) : bool :=
  match v with
  | CVal v => truthy v
  | CEnum _ => true
  end.

(** [v == SearchAPI.TAVILY] *)
Definition is_tavily (v : cfgval) : bool :=
  match v with
  | CEnum TAVILY => true
  | _ => false
  end.

(** The dataclass; fields carry whatever they were given (a dataclass does
    not check annotations). *)
Record Configuration : Type := mkConfiguration {
  max_web_research_loops : cfgval;
  model_name : cfgval;
  search_api : cfgval;
  max_store_recommendations : cfgval;
  include_price_estimates : cfgval;
  max_recipe_alternatives : cfgval
}.

(** [fields(cls)], in declaration order; all have [init=True]. *)
Definition fields : list string :=
  [ "max_web_research_loops"; "model_name"; "search_api";
    "max_store_recommendations"; "include_price_estimates";
    "max_recipe_alternatives" ].

(** The defaults written in the class body. *)
Definition defaults : Configuration :=
  {| max_web_research_loops := CVal (PInt 3);
     model_name := CVal (PStr "gpt-4-0125-preview");
     search_api := CEnum TAVILY;
     max_store_recommendations := CVal (PInt 3);
     include_price_estimates := CVal (PBool true);
     max_recipe_alternatives := CVal (PInt 2) |}.

(** [getattr(c, name)] for a declared field. *)
Definition getattr (c : Configuration) (name : string) : option cfgval :=
  if name =? "max_web_research_loops" then Some (max_web_research_loops c)
  else if name =? "model_name" then Some (model_name c)
  else if name =? "search_api" then Some (search_api c)
  else if name =? "max_store_recommendations" then Some (max_store_recommendations c)
  else if name =? "include_price_estimates" then Some (include_price_estimates c)
  else if name =? "max_recipe_alternatives" then Some (max_recipe_alternatives c)
  else None.

(** The constructor called on keyword arguments: a field takes its keyword argument when there is one
    and its default otherwise. *)
Definition kwarg (kwargs : list (string * cfgval)) (name : string)
    (default : cfgval) : cfgval :=
  match lookup name kwargs with
  | Some v => v
  | None => default
  end.

Definition cls (kwargs : list (string * cfgval)) : Configuration :=
  {| max_web_research_loops :=
       kwarg kwargs "max_web_research_loops" (max_web_research_loops defaults);
     model_name := kwarg kwargs "model_name" (model_name defaults);
     search_api := kwarg kwargs "search_api" (search_api defaults);
     max_store_recommendations :=
       kwarg kwargs "max_store_recommendations" (max_store_recommendations defaults);
     include_price_estimates :=
       kwarg kwargs "include_price_estimates" (include_price_estimates defaults);
     max_recipe_alternatives :=
       kwarg kwargs "max_recipe_alternatives" (max_recipe_alternatives defaults) |}.

(** A [RunnableConfig]: only its [configurable] entry is read. *)
Record RunnableConfig : Type := mkRunnableConfig {
  configurable : option (list (string * cfgval))
}.

Section FromRunnableConfig.

(** [os.environ.get] *)
Variable environ : string -> option string.

(** [config["configurable"] if config and "configurable" in config else {}] *)
Definition configurable_of (config : option RunnableConfig)
    : list (string * cfgval) :=
  match config with
  | Some c =>
      match configurable c with
      | Some d => d
      | None => []
      end
  | None => []
  end.

(** [configurable.get(name)] *)
Definition explicit (config : option RunnableConfig) (name : string) : cfgval :=
  match lookup name (configurable_of config) with
  | Some v => v
  | None => CVal PNone
  end.

(** [os.environ.get(name.upper(), configurable.get(name))] *)
Definition raw_value (config : option RunnableConfig) (name : string) : cfgval :=
  match environ (upper name) with
  | Some s => CVal (PStr s)
  | None => explicit config name
  end.

(** The dictionary [values]. *)
Definition values (config : option RunnableConfig) : list (string * cfgval) :=
  map (fun name => (name, raw_value config name)) fields.

Definition from_runnable_config (config : option RunnableConfig) : Configuration :=
  cls (filter (fun kv => cfg_truthy (snd kv)) (values config)).

End FromRunnableConfig.

(** The resolution order as the specification words it: explicit per-run
    override, then environment value, then built-in default. *)
Definition spec_resolution (environ : string -> option string)
    (config : option RunnableConfig) (name : string) : option cfgval :=
  match lookup name (configurable_of config) with
  | Some v => Some v
  | None =>
      match environ (upper name) with
      | Some s => Some (CVal (PStr s))
      | None => getattr defaults name
      end
  end.

End Config.

Export Config.

(* ===================================================================== *)
(** * The collaborators                                                   *)
(* ===================================================================== *)

(** A chat-model handle, as built by [ChatOpenAI(model=..., temperature=...)]. *)
Inductive ChatModel : Type :=
| mkChatModel (model : cfgval) (temperature : Z).

(** Everything the sources call but do not define. Each call either returns
    or raises. *)
Record World : Type := mkWorld {
  (** [os.environ.get] *)
  environ : string -> option string;
  (** [str] of a float or of a container *)
  py_repr : pyval -> string;
  (** [json.loads] *)
  json_loads : string -> result pyval;
  (** the [ChatOpenAI] constructor *)
  ChatOpenAI : cfgval -> Z -> result ChatModel;
  (** [llm.invoke([SystemMessage(s), HumanMessage(h)]).content] *)
  llm_invoke : ChatModel -> string -> string -> result string;
  (** [utils.tavily_search] *)
  tavily_search : pyval -> result pyval;
  (** [utils.perplexity_search] *)
  perplexity_search : pyval -> Z -> result pyval;
  (** [utils.format_sources] *)
  format_sources : pyval -> result pyval
}.

(* ===================================================================== *)
(** * state.py                                                            *)
(* ===================================================================== *)

Module StateInput.

(** [MealPlanStateInput] *)
Record MealPlanStateInput : Type := mkMealPlanStateInput {
  location : string;
  cuisine_preference : option string;
  dietary_restrictions : list string;
  flavor_preference : option string
}.

End StateInput.

Module State.

(** [MealPlanState]. The fields a stage fills hold whatever the stage
    returned; the two research fields are lists combined with
    [operator.add]. *)
Record MealPlanState : Type := mkMealPlanState {
  location : string;
  cuisine_preference : option string;
  dietary_restrictions : list string;
  flavor_preference : option string;
  recipe_name : pyval;
  ingredients : pyval;
  instructions : pyval;
  store_recommendations : pyval;
  web_research_results : list pyval;
  sources_gathered : list pyval;
  final_report : pyval
}.

(** The state a run starts from: the input fields, and the dataclass
    defaults elsewhere. *)
Definition initial_state (i : StateInput.MealPlanStateInput) : MealPlanState :=
  {| location := StateInput.location i;
     cuisine_preference := StateInput.cuisine_preference i;
     dietary_restrictions := StateInput.dietary_restrictions i;
     flavor_preference := StateInput.flavor_preference i;
     recipe_name := PNone;
     ingredients := PList [];
     instructions := PList [];
     store_recommendations := PList [];
     web_research_results := [];
     sources_gathered := [];
     final_report := PNone |}.

(** The dictionary a stage returns: the keys it sets. *)
Record StateUpdate : Type := mkStateUpdate {
  upd_recipe_name : option pyval;
  upd_ingredients : option pyval;
  upd_instructions : option pyval;
  upd_store_recommendations : option pyval;
  upd_web_research_results : option (list pyval);
  upd_sources_gathered : option (list pyval);
  upd_final_report : option pyval
}.

(** A plain field keeps the last value written. *)
Definition last_value {A : Type} (old : A) (new : option A) : A :=
  match new with
  | Some v => v
  | None => old
  end.

(** An [Annotated[list, operator.add]] field: [old + new]. *)
Definition operator_add (old : list pyval) (new : option (list pyval)) : list pyval :=
  match new with
  | Some l => (old ++ l)%list
  | None => old
  end.

(** Folding a stage's update into the running state, field by field. *)
Definition merge (st : MealPlanState) (u : StateUpdate) : MealPlanState :=
  {| location := location st;
     cuisine_preference := cuisine_preference st;
     dietary_restrictions := dietary_restrictions st;
     flavor_preference := flavor_preference st;
     recipe_name := last_value (recipe_name st) (upd_recipe_name u);
     ingredients := last_value (ingredients st) (upd_ingredients u);
     instructions := last_value (instructions st) (upd_instructions u);
     store_recommendations :=
       last_value (store_recommendations st) (upd_store_recommendations u);
     web_research_results :=
       operator_add (web_research_results st) (upd_web_research_results u);
     sources_gathered :=
       operator_add (sources_gathered st) (upd_sources_gathered u);
     final_report := last_value (final_report st) (upd_final_report u) |}.

End State.

Export State.

(* ===================================================================== *)
(** * meal_prompts.py                                                     *)
(* ===================================================================== *)

Module MealPrompts.

(** A double-quoted word. *)
Definition q (s : string) : string := dq ++ s ++ dq.

(** [RECIPE_SEARCH_INSTRUCTIONS.format(location=..., cuisine=..., restrictions=..., flavor=...)] *)
Definition RECIPE_SEARCH_INSTRUCTIONS (location cuisine restrictions flavor : string) : string :=
  String.concat EmptyString
    [ "Generate a web search query to find recipes that match the user's preferences.

<USER_PREFERENCES>
Location: "; location; "
Cuisine: "; cuisine; "
Dietary Restrictions: "; restrictions; "
Flavor Profile: "; flavor; "
</USER_PREFERENCES>

Format your response as a JSON object with these keys:
- "; q "query"; ": The search query string
- "; q "rationale"; ": Brief explanation of why this query matches preferences

Example:
{
    "; q "query"; ": "; q "healthy vegetarian thai curry recipe spicy"; ",
    "; q "rationale"; ": ";
      q "Matches user's Thai cuisine preference and vegetarian restriction"; "
}
" ].

(** [STORE_SEARCH_INSTRUCTIONS.format(location=..., ingredients=...)] *)
Definition STORE_SEARCH_INSTRUCTIONS (location ingredients : string) : string :=
  String.concat EmptyString
    [ "Generate a web search query to find grocery stores near the user that likely stock the needed ingredients.

<LOCATION>
"; location; "
</LOCATION>

<INGREDIENTS>
"; ingredients; "
</INGREDIENTS>

Format your response as a JSON object with these keys:
- "; q "query"; ": The search query string
- "; q "specialty_items";
      ": List of ingredients that might need specialty stores

Example:
{
    "; q "query"; ": "; q "asian grocery stores near downtown seattle"; ",
    "; q "specialty_items"; ": ["; q "kaffir lime leaves"; ", "; q "galangal";
      "]
}
" ].

(** [FINAL_REPORT_TEMPLATE.format(recipe_name=..., store_recommendations=..., ingredients=..., instructions=...)] *)
Definition FINAL_REPORT_TEMPLATE (recipe_name store_recommendations ingredients instructions : string) : string :=
  String.concat EmptyString
    [ "# Meal Planning Report

## Recipe: "; recipe_name; "

### Recommended Stores:
"; store_recommendations; "

### Shopping List:
"; ingredients; "

### Cooking Instructions:
"; instructions; "

*All store recommendations and prices are approximate. Please call ahead to confirm availability.*
" ].

End MealPrompts.

Export MealPrompts.

(* ===================================================================== *)
(** * meal_utils.py                                                       *)
(* ===================================================================== *)

Module MealUtils.

(** The newline character. *)
Definition nl : string := String "010"%char EmptyString.

Section WithWorld.

Variable W : World.

(** [str(v)], which is also how an f-string or [str.format] renders [v]. *)
Definition py_str (v : pyval) : string :=
  match v with
  | PStr s => s
  | PNone => "None"
  | PBool true => "True"
  | PBool false => "False"
  | PInt z => NilZero.string_of_int (Z.to_int z)
  | _ => py_repr W v
  end.

(** The items of a [join], which must all be strings; [i] is the position
    of the first one. *)
Fixpoint str_items (i : nat) (items : list pyval) : result (list string) :=
  match items with
  | [] => Ok []
  | PStr s :: rest => strs <- str_items (S i) rest ;; Ok (s :: strs)
  | x :: _ =>
      raise TypeError
        ("sequence item " ++ str_of_nat i ++ ": expected str instance, "
           ++ type_name x ++ " found")
  end.

(** [sep.join(v)]: [v] must be an iterable of strings. *)
Definition py_join (sep : string) (v : pyval) : result string :=
  match py_iter v with
  | Raise _ => raise TypeError "can only join an iterable"
  | Ok items => strs <- str_items 0 items ;; Ok (join sep strs)
  end.

(** One line of the shopping list. *)
Definition ingredient_line (item : pyval) : result string :=
  quantity <- py_get item "quantity" (PStr EmptyString) ;;
  unit <- py_get item "unit" (PStr EmptyString) ;;
  name <- py_get item "name" (PStr EmptyString) ;;
  Ok (strip ("- " ++ py_str quantity ++ " " ++ py_str unit ++ " " ++ py_str name)).

Definition format_ingredients_list (ingredients : pyval) : result string :=
  items <- py_iter ingredients ;;
  formatted <- mapM ingredient_line items ;;
  Ok (join nl formatted).

(** One block of the store list. *)
Definition store_block (store : pyval) : result string :=
  name <- py_get store "name" (PStr EmptyString) ;;
  address <- py_get store "address" (PStr EmptyString) ;;
  specialty_items <- py_get store "specialty_items" (PList []) ;;
  let store_info := "* " ++ py_str name ++ " - " ++ py_str address in
  if truthy specialty_items then
    joined <- py_join ", " specialty_items ;;
    Ok (store_info ++ nl ++ "  Recommended for: " ++ joined)
  else Ok store_info.

Definition format_store_recommendations (stores : pyval) : result string :=
  items <- py_iter stores ;;
  formatted <- mapM store_block items ;;
  Ok (join nl formatted).

(** [f"{i+1}. {step}" for i, step in enumerate(steps)], counting from [i]. *)
Fixpoint numbered (i : nat) (steps : list pyval) : list string :=
  match steps with
  | [] => []
  | step :: rest =>
      (str_of_nat (i + 1) ++ ". " ++ py_str step) :: numbered (S i) rest
  end.

(** [generate_final_report(asdict(state))]; the keyword arguments are
    evaluated in the order they are written. *)
Definition generate_final_report (state : MealPlanState) : result string :=
  let name := py_str (recipe_name state) in
  stores <- format_store_recommendations (store_recommendations state) ;;
  shopping <- format_ingredients_list (ingredients state) ;;
  steps <- py_iter (instructions state) ;;
  Ok (FINAL_REPORT_TEMPLATE name stores shopping (join nl (numbered 0 steps))).

End WithWorld.

End MealUtils.

Export MealUtils.

(* ===================================================================== *)
(** * graph.py                                                            *)
(* ===================================================================== *)

Module Graph.

(** The local template [parse_prompt] of [parse_recipe], formatted. *)
Definition parse_prompt (search_results : string) : string :=
  String.concat EmptyString
    [ "Extract recipe information from the search results and format it as a valid JSON object.

<SEARCH_RESULTS>
"; search_results; "
</SEARCH_RESULTS>

Return a JSON object with exactly these keys:
{
    "; q "recipe_name"; ": "; q "Name of the recipe"; ",
    "; q "ingredients"; ": [
        {
            "; q "quantity"; ": "; q "numeric amount"; ",
            "; q "unit"; ": ";
      q "measurement unit (e.g., cup, tablespoon, etc.)"; ",
            "; q "name"; ": "; q "ingredient name"; "
        }
    ],
    "; q "instructions"; ": [
        "; q "Step 1 instruction"; ",
        "; q "Step 2 instruction"; ",
        "; q "etc."; "
    ]
}

If no clear recipe is found in the search results, return a basic recipe structure with placeholder values.

Example response:
{
    "; q "recipe_name"; ": "; q "Spicy Vegetarian Pasta"; ",
    "; q "ingredients"; ": [
        {
            "; q "quantity"; ": "; q "16"; ",
            "; q "unit"; ": "; q "oz"; ",
            "; q "name"; ": "; q "penne pasta"; "
        },
        {
            "; q "quantity"; ": "; q "2"; ",
            "; q "unit"; ": "; q "tablespoons"; ",
            "; q "name"; ": "; q "olive oil"; "
        }
    ],
    "; q "instructions"; ": [
        "; q "Boil water in a large pot"; ",
        "; q "Cook pasta according to package directions"; ",
        "; q "Heat olive oil in a pan"; "
    ]
}" ].

(** The local template [store_prompt] of [find_stores], formatted. *)
Definition store_prompt (search_content : string) : string :=
  String.concat EmptyString
    [ "Extract grocery store information from the search results.

<SEARCH_RESULTS>
"; search_content; "
</SEARCH_RESULTS>

Return a JSON array of stores in this exact format:
{
    "; q "stores"; ": [
        {
            "; q "name"; ": "; q "Store name"; ",
            "; q "address"; ": "; q "Store address"; ",
            "; q "specialty_items"; ": ["; q "item1"; ", "; q "item2"; "]
        }
    ]
}

Example response:
{
    "; q "stores"; ": [
        {
            "; q "name"; ": "; q "Whole Foods Market"; ",
            "; q "address"; ": "; q "123 Main St, San Diego, CA 92101"; ",
            "; q "specialty_items"; ": ["; q "organic produce"; ", ";
      q "vegan options"; "]
        },
        {
            "; q "name"; ": "; q "Trader Joe's"; ",
            "; q "address"; ": "; q "456 Market St, San Diego, CA 92102"; ",
            "; q "specialty_items"; ": ["; q "specialty pasta"; ", ";
      q "vegetarian items"; "]
        }
    ]
}" ].

(** [x or default] for an optional string. *)
Definition or_default (x : option string) (default : string) : string :=
  match x with
  | Some s => if s =? EmptyString then default else s
  | None => default
  end.

(** The keys checked on the extracted recipe and on each store. The source
    holds them in a set; the order of the checks does not change the outcome
    (lemma [keys_present_perm] below). *)
Definition recipe_required_keys : list string :=
  [ "recipe_name"; "ingredients"; "instructions" ].

Definition store_required_keys : list string :=
  [ "name"; "address"; "specialty_items" ].

(** [all(key in v for key in keys)] *)
Definition keys_present (keys : list string) (v : pyval) : result bool :=
  allM (fun key => py_contains key v) keys.

(** [l[:n]] *)
Definition py_slice_to (l : list pyval) (n : cfgval) : result (list pyval) :=
  match n with
  | CVal (PInt z) =>
      if (0 <=? z)%Z then Ok (firstn (Z.to_nat z) l)
      else Ok (firstn (length l - Z.to_nat (- z)) l)
  | CVal (PBool b) => Ok (firstn (if b then 1 else 0) l)
  | CVal PNone => Ok l
  | _ =>
      raise TypeError
        "slice indices must be integers or None or have an __index__ method"
  end.

(** The value stage 1 substitutes for a failed search. *)
Definition failed_search (e : exn) : StateUpdate :=
  {| upd_recipe_name := None;
     upd_ingredients := None;
     upd_instructions := None;
     upd_store_recommendations := None;
     upd_web_research_results :=
       Some [ PDict [ ("results",
                PList [ PDict [ ("title", PStr "Error in search");
                                ("content",
                                 PStr ("Failed to search for recipes: " ++ exn_str e));
                                ("url", PStr EmptyString) ] ]) ] ];
     upd_sources_gathered := Some [ PStr "Search failed" ];
     upd_final_report := None |}.

(** The value stage 2 substitutes for an unusable recipe. *)
Definition fallback_recipe : StateUpdate :=
  {| upd_recipe_name := Some (PStr "Basic Recipe (Error in parsing)");
     upd_ingredients :=
       Some (PList [ PDict [ ("quantity", PStr "1"); ("unit", PStr "serving");
                             ("name", PStr "ingredients not found") ] ]);
     upd_instructions := Some (PList [ PStr "Recipe instructions could not be parsed" ]);
     upd_store_recommendations := None;
     upd_web_research_results := None;
     upd_sources_gathered := None;
     upd_final_report := None |}.

(** The single store stage 3 substitutes for an unusable store list. *)
Definition fallback_store (location : string) : pyval :=
  PDict [ ("name", PStr "Local Grocery Store");
          ("address", PStr ("Search for grocery stores near " ++ location));
          ("specialty_items", PList [ PStr "Unable to parse store data" ]) ].

Definition stores_update (stores : pyval) : StateUpdate :=
  {| upd_recipe_name := None;
     upd_ingredients := None;
     upd_instructions := None;
     upd_store_recommendations := Some stores;
     upd_web_research_results := None;
     upd_sources_gathered := None;
     upd_final_report := None |}.

Section Stages.

Variable W : World.

(** The text both extraction prompts are given: one block per search
    result, or the batch printed as it is when it has no [results]. *)
Definition result_block (entry : pyval) : result string :=
  title <- py_get entry "title" (PStr EmptyString) ;;
  content <- py_get entry "content" (PStr EmptyString) ;;
  url <- py_get entry "url" (PStr EmptyString) ;;
  Ok ("Title: " ++ py_str W title ++ nl ++
      "Content: " ++ py_str W content ++ nl ++
      "URL: " ++ py_str W url).

Definition search_content_of (batch : pyval) : result string :=
  has_results <- (if is_dict batch then py_contains "results" batch else Ok false) ;;
  if has_results then
    results <- py_getitem batch "results" ;;
    items <- py_iter results ;;
    blocks <- mapM result_block items ;;
    Ok (join (nl ++ nl) blocks)
  else Ok (py_str W batch).

(** [tavily_search(q)] or [perplexity_search(q, 0)], by configuration. *)
Definition web_search (c : Configuration) (q : pyval) : result pyval :=
  if is_tavily (search_api c) then tavily_search W q
  else perplexity_search W q 0.

(** ** Stage 1

    The handlers of the three stages also print the message of the
    exception they caught; console output is not part of the model. *)

(** The prompt of stage 1. *)
Definition recipe_search_prompt (state : MealPlanState) : string :=
  let restrictions := join ", " (dietary_restrictions state) in
  RECIPE_SEARCH_INSTRUCTIONS
    (location state)
    (or_default (cuisine_preference state) "any")
    (if restrictions =? EmptyString then "none" else restrictions)
    (or_default (flavor_preference state) "any").

(** The body of the [try] block. *)
Definition search_recipes_try (state : MealPlanState)
    (config : option RunnableConfig) : result StateUpdate :=
  let search_prompt := recipe_search_prompt state in
  let configurable := from_runnable_config (environ W) config in
  llm <- ChatOpenAI W (model_name configurable) 0 ;;
  content <- llm_invoke W llm search_prompt "Generate a recipe search query:" ;;
  query <- json_loads W content ;;
  invalid <- (if negb (is_dict query) then Ok true
              else found <- py_contains "query" query ;; Ok (negb found)) ;;
  if invalid then raise ValueError "Invalid query format from LLM"
  else
    q <- py_getitem query "query" ;;
    search_results <- web_search configurable q ;;
    if negb (truthy search_results) then raise ValueError "No search results found"
    else
      sources <- format_sources W search_results ;;
      Ok {| upd_recipe_name := None;
            upd_ingredients := None;
            upd_instructions := None;
            upd_store_recommendations := None;
            upd_web_research_results := Some [ search_results ];
            upd_sources_gathered := Some [ sources ];
            upd_final_report := None |}.

Definition search_recipes (state : MealPlanState)
    (config : option RunnableConfig) : result StateUpdate :=
  try_except (search_recipes_try state config)
    [ JSONDecodeError; ValueError; PyException ]
    (fun e => Ok (failed_search e)).

(** ** Stage 2 *)

(** The body of the [try] block, given the model's reply. *)
Definition parse_recipe_try (content : string) : result StateUpdate :=
  recipe_data <- json_loads W content ;;
  complete <- keys_present recipe_required_keys recipe_data ;;
  if negb complete then raise ValueError "Missing required keys in recipe data"
  else
    name <- py_getitem recipe_data "recipe_name" ;;
    ingredients <- py_getitem recipe_data "ingredients" ;;
    instructions <- py_getitem recipe_data "instructions" ;;
    Ok {| upd_recipe_name := Some name;
          upd_ingredients := Some ingredients;
          upd_instructions := Some instructions;
          upd_store_recommendations := None;
          upd_web_research_results := None;
          upd_sources_gathered := None;
          upd_final_report := None |}.

Definition parse_recipe (state : MealPlanState)
    (config : option RunnableConfig) : result StateUpdate :=
  let configurable := from_runnable_config (environ W) config in
  llm <- ChatOpenAI W (model_name configurable) 0 ;;
  most_recent_results <- py_last (web_research_results state) ;;
  search_content <- search_content_of most_recent_results ;;
  content <- llm_invoke W llm (parse_prompt search_content)
               "Extract and format the recipe information as JSON:" ;;
  try_except (parse_recipe_try content)
    [ JSONDecodeError; ValueError ]
    (fun e => Ok fallback_recipe).

(** ** Stage 3 *)

(** [f"- {i['name']}" for i in state.ingredients] *)
Definition ingredient_names (ingredients : pyval) : result (list string) :=
  items <- py_iter ingredients ;;
  mapM (fun i => name <- py_getitem i "name" ;; Ok ("- " ++ py_str W name)) items.

(** The per-store check of the validation loop. *)
Definition check_store (store : pyval) : result unit :=
  complete <- keys_present store_required_keys store ;;
  if negb complete
  then raise ValueError ("Store missing required keys: " ++ py_str W store)
  else Ok tt.

(** The body of the [try] block. *)
Definition find_stores_try (configurable : Configuration) (llm : ChatModel)
    (search_content : string) : result StateUpdate :=
  content <- llm_invoke W llm (store_prompt search_content)
               "Extract and format the store information as JSON:" ;;
  store_data <- json_loads W content ;;
  invalid <- (if negb (is_dict store_data) then Ok true
              else found <- py_contains "stores" store_data ;; Ok (negb found)) ;;
  if invalid then raise ValueError "Invalid store data format"
  else
    stores <- py_getitem store_data "stores" ;;
    match stores with
    | PList l =>
        _ <- forM_ check_store l ;;
        kept <- py_slice_to l (max_store_recommendations configurable) ;;
        Ok (stores_update (PList kept))
    | _ => raise ValueError "Stores must be a list"
    end.

(** Everything [find_stores] does before its [try] block: the query
    generation, its parse, the search and the formatting of the results. *)
Definition find_stores_query (state : MealPlanState)
    (config : option RunnableConfig)
    : result (Configuration * ChatModel * string) :=
  names <- ingredient_names (ingredients state) ;;
  let search_prompt := STORE_SEARCH_INSTRUCTIONS (location state) (join nl names) in
  let configurable := from_runnable_config (environ W) config in
  llm <- ChatOpenAI W (model_name configurable) 0 ;;
  content <- llm_invoke W llm search_prompt "Generate a store search query:" ;;
  query <- json_loads W content ;;
  q <- py_getitem query "query" ;;
  search_results <- web_search configurable q ;;
  search_content <- search_content_of search_results ;;
  Ok (configurable, llm, search_content).

Definition find_stores (state : MealPlanState)
    (config : option RunnableConfig) : result StateUpdate :=
  prepared <- find_stores_query state config ;;
  let '(configurable, llm, search_content) := prepared in
  try_except (find_stores_try configurable llm search_content)
    [ JSONDecodeError; ValueError ]
    (fun e => Ok (stores_update (PList [ fallback_store (location state) ]))).

(** ** Stage 4 *)

Definition create_report (state : MealPlanState) : result StateUpdate :=
  report <- generate_final_report W state ;;
  Ok {| upd_recipe_name := None;
        upd_ingredients := None;
        upd_instructions := None;
        upd_store_recommendations := None;
        upd_web_research_results := None;
        upd_sources_gathered := None;
        upd_final_report := Some (PStr report) |}.

(** ** The graph: START, the four nodes in a line, END *)

Inductive node : Type :=
| n_search_recipes | n_parse_recipe | n_find_stores | n_create_report.

Definition nodes : list node :=
  [ n_search_recipes; n_parse_recipe; n_find_stores; n_create_report ].

Definition run_node (n : node) (state : MealPlanState)
    (config : option RunnableConfig) : result StateUpdate :=
  match n with
  | n_search_recipes => search_recipes state config
  | n_parse_recipe => parse_recipe state config
  | n_find_stores => find_stores state config
  | n_create_report => create_report state
  end.

(** One step of the run: the node's update merged into the state. *)
Definition step (config : option RunnableConfig) (n : node)
    (state : MealPlanState) : result MealPlanState :=
  u <- run_node n state config ;;
  Ok (merge state u).

Fixpoint run_nodes (config : option RunnableConfig) (ns : list node)
    (state : MealPlanState) : result MealPlanState :=
  match ns with
  | [] => Ok state
  | n :: rest => state' <- step config n state ;; run_nodes config rest state'
  end.

(** The state a whole run ends in. *)
Definition run (input : StateInput.MealPlanStateInput)
    (config : option RunnableConfig) : result MealPlanState :=
  run_nodes config nodes (initial_state input).

(** [graph.invoke(input, config)["final_report"]] *)
Definition invoke (input : StateInput.MealPlanStateInput)
    (config : option RunnableConfig) : result pyval :=
  state <- run input config ;;
  Ok (final_report state).

End Stages.

End Graph.

Export Graph.

(* ===================================================================== *)
(** * cli.py                                                              *)
(* ===================================================================== *)

Module Cli.

(** [run_meal_planner]: the configuration and the input state it builds,
    and the report it asks the graph for. *)
Definition cli_config (model : option string) : option RunnableConfig :=
  Some {| configurable :=
            Some [ ("model_name",
                    CVal (match model with Some m => PStr m | None => PNone end));
                   ("max_store_recommendations", CVal (PInt 3));
                   ("include_price_estimates", CVal (PBool true)) ] |}.

Definition run_meal_planner (W : World) (location : string)
    (cuisine : option string) (restrictions : option (list string))
    (flavor : option string) (model : option string) : result pyval :=
  let input_state :=
    {| StateInput.location := location;
       StateInput.cuisine_preference := cuisine;
       StateInput.dietary_restrictions :=
         match restrictions with
         | Some (r :: rs) => r :: rs
         | _ => []
         end;
       StateInput.flavor_preference := flavor |} in
  invoke W input_state (cli_config model).

End Cli.

(* ===================================================================== *)
(** * Scripted collaborators for concrete runs                            *)
(* ===================================================================== *)

Module Script.

(** A world whose model answers by task message, whose [json.loads] knows
    the listed texts and rejects every other one, and whose two search back
    ends return the same batch. *)
Definition world (env : list (string * string))
    (replies : list (string * result string))
    (json : list (string * pyval))
    (search : result pyval) : World :=
  {| environ := fun name => lookup name env;
     py_repr := fun v => "<" ++ type_name v ++ ">";
     json_loads := fun text =>
       match lookup text json with
       | Some v => Ok v
       | None => raise JSONDecodeError "Expecting value: line 1 column 1 (char 0)"
       end;
     ChatOpenAI := fun model temperature => Ok (mkChatModel model temperature);
     llm_invoke := fun _ _ human =>
       match lookup human replies with
       | Some r => r
       | None => raise (ExternalError "APIConnectionError") "Connection error."
       end;
     tavily_search := fun _ => search;
     perplexity_search := fun _ _ => search;
     format_sources := fun _ => Ok (PStr "* Thai curry : https://example.org/curry") |}.

(** The four task messages of graph.py. *)
Definition ask_recipe_query : string := "Generate a recipe search query:".
Definition ask_recipe : string := "Extract and format the recipe information as JSON:".
Definition ask_store_query : string := "Generate a store search query:".
Definition ask_stores : string := "Extract and format the store information as JSON:".

(** JSON texts, each with the value [json.loads] gives for it. *)
Definition query_text : string :=
  "{" ++ q "query" ++ ": " ++ q "thai curry recipe" ++ "}".
Definition query_value : pyval :=
  PDict [ ("query", PStr "thai curry recipe") ].

Definition recipe_text : string :=
  "{" ++ q "recipe_name" ++ ": " ++ q "Green Curry" ++ ", "
      ++ q "ingredients" ++ ": [{" ++ q "quantity" ++ ": " ++ q "2" ++ ", "
      ++ q "unit" ++ ": " ++ q "cups" ++ ", " ++ q "name" ++ ": " ++ q "rice" ++ "}], "
      ++ q "instructions" ++ ": [" ++ q "Boil rice" ++ ", " ++ q "Serve" ++ "]}".
Definition recipe_value : pyval :=
  PDict [ ("recipe_name", PStr "Green Curry");
          ("ingredients",
           PList [ PDict [ ("quantity", PStr "2"); ("unit", PStr "cups");
                           ("name", PStr "rice") ] ]);
          ("instructions", PList [ PStr "Boil rice"; PStr "Serve" ]) ].

Definition store_text (name : string) : string :=
  "{" ++ q "name" ++ ": " ++ q name ++ ", "
      ++ q "address" ++ ": " ++ q "1 Main St" ++ ", "
      ++ q "specialty_items" ++ ": [" ++ q "rice" ++ "]}".
Definition store (name : string) : pyval :=
  PDict [ ("name", PStr name); ("address", PStr "1 Main St");
          ("specialty_items", PList [ PStr "rice" ]) ].

Definition five_names : list string := [ "A"; "B"; "C"; "D"; "E" ].

Definition stores_text : string :=
  "{" ++ q "stores" ++ ": [" ++ join ", " (map store_text five_names) ++ "]}".
Definition stores_value : pyval :=
  PDict [ ("stores", PList (map store five_names)) ].

(** A store list whose first element is [null] and whose second lacks
    [address] and [specialty_items]. *)
Definition null_then_partial_text : string :=
  "{" ++ q "stores" ++ ": [null, {" ++ q "name" ++ ": " ++ q "A" ++ "}]}".
Definition null_then_partial_value : pyval :=
  PDict [ ("stores", PList [ PNone; PDict [ ("name", PStr "A") ] ]) ].

(** A store list whose second element lacks [specialty_items]. *)
Definition partial_store_text : string :=
  "{" ++ q "stores" ++ ": [" ++ store_text "A" ++ ", {" ++ q "name" ++ ": " ++ q "B"
      ++ ", " ++ q "address" ++ ": " ++ q "2 Main St" ++ "}]}".
Definition partial_store_value : pyval :=
  PDict [ ("stores",
           PList [ store "A";
                   PDict [ ("name", PStr "B"); ("address", PStr "2 Main St") ] ]) ].

(** A recipe object without [instructions]. *)
Definition partial_recipe_text : string :=
  "{" ++ q "recipe_name" ++ ": " ++ q "Green Curry" ++ ", "
      ++ q "ingredients" ++ ": []}".
Definition partial_recipe_value : pyval :=
  PDict [ ("recipe_name", PStr "Green Curry"); ("ingredients", PList []) ].

Definition batch : pyval :=
  PDict [ ("results",
           PList [ PDict [ ("title", PStr "Thai curry");
                           ("content", PStr "A green curry.");
                           ("url", PStr "https://example.org/curry") ] ]) ].

Definition known_json : list (string * pyval) :=
  [ (query_text, query_value); (recipe_text, recipe_value);
    (stores_text, stores_value); ("42", PInt 42);
    (null_then_partial_text, null_then_partial_value);
    (partial_store_text, partial_store_value);
    (partial_recipe_text, partial_recipe_value);
    ("{}", PDict []) ].

(** A world given by the four replies, in stage order. *)
Definition replying (env : list (string * string))
    (recipe_query recipe store_query stores : result string)
    (search : result pyval) : World :=
  world env
    [ (ask_recipe_query, recipe_query); (ask_recipe, recipe);
      (ask_store_query, store_query); (ask_stores, stores) ]
    known_json search.

Definition unreachable : result string :=
  raise (ExternalError "APIConnectionError") "Connection error.".

(** Every call answers well. *)
Definition healthy : World :=
  replying [] (Ok query_text) (Ok recipe_text) (Ok query_text) (Ok stores_text)
    (Ok batch).

(** Stages 1 to 3 all degrade: the first model call fails and both
    extraction replies are not JSON. *)
Definition degraded : World :=
  replying [] unreachable (Ok "not json") (Ok query_text) (Ok "not json")
    (Ok batch).

(** The store-query reply is not JSON. *)
Definition bad_store_query : World :=
  replying [] (Ok query_text) (Ok recipe_text) (Ok "not json") (Ok stores_text)
    (Ok batch).

(** The model is unreachable at the store-query call. *)
Definition store_query_down : World :=
  replying [] (Ok query_text) (Ok recipe_text) unreachable (Ok stores_text)
    (Ok batch).

(** The search back end fails. *)
Definition search_down : World :=
  replying [] (Ok query_text) (Ok recipe_text) (Ok query_text) (Ok stores_text)
    (raise (ExternalError "HTTPError") "502 Bad Gateway").

(** The search back end returns nothing. *)
Definition search_empty : World :=
  replying [] (Ok query_text) (Ok recipe_text) (Ok query_text) (Ok stores_text)
    (Ok (PDict [])).


(** The store-extraction reply is not JSON. *)
Definition bad_store_reply : World :=
  replying [] (Ok query_text) (Ok recipe_text) (Ok query_text) (Ok "not json")
    (Ok batch).

(** The recipe-extraction reply is the JSON number 42. *)
Definition scalar_recipe : World :=
  replying [] (Ok query_text) (Ok "42") (Ok query_text) (Ok stores_text)
    (Ok batch).

(** The recipe-extraction reply is not JSON. *)
Definition bad_recipe_reply : World :=
  replying [] (Ok query_text) (Ok "not json") (Ok query_text) (Ok stores_text)
    (Ok batch).

(** The recipe-extraction reply lacks a key. *)
Definition partial_recipe : World :=
  replying [] (Ok query_text) (Ok partial_recipe_text) (Ok query_text)
    (Ok stores_text) (Ok batch).

(** The recipe-query reply is an object without [query]. *)
Definition no_query_key : World :=
  replying [] (Ok "{}") (Ok recipe_text) (Ok query_text) (Ok stores_text)
    (Ok batch).

(** The recipe-query reply is not JSON. *)
Definition bad_recipe_query : World :=
  replying [] (Ok "not json") (Ok recipe_text) (Ok query_text) (Ok stores_text)
    (Ok batch).

(** The store list starts with [null]. *)
Definition null_store : World :=
  replying [] (Ok query_text) (Ok recipe_text) (Ok query_text)
    (Ok null_then_partial_text) (Ok batch).

(** The store list has an element without [specialty_items]. *)
Definition partial_store : World :=
  replying [] (Ok query_text) (Ok recipe_text) (Ok query_text)
    (Ok partial_store_text) (Ok batch).

Definition san_diego : StateInput.MealPlanStateInput :=
  {| StateInput.location := "San Diego";
     StateInput.cuisine_preference := Some "thai";
     StateInput.dietary_restrictions := [ "vegetarian" ];
     StateInput.flavor_preference := None |}.

(** The configuration cli.py passes for its default model. *)
Definition cli_config : option RunnableConfig :=
  Cli.cli_config (Some "gpt-4-0125-preview").

(** An environment that sets MODEL_NAME, and a run that overrides
    [model_name] explicitly. *)
Definition env_model : string -> option string :=
  fun name => lookup name [ ("MODEL_NAME", "env-model") ].

Definition explicit_model : option RunnableConfig :=
  Some {| configurable := Some [ ("model_name", CVal (PStr "explicit-model")) ] |}.

(** An empty environment, and a run that sets two fields to false values. *)
Definition no_env : string -> option string := fun _ => None.

Definition zero_and_false : option RunnableConfig :=
  Some {| configurable :=
            Some [ ("max_store_recommendations", CVal (PInt 0));
                   ("include_price_estimates", CVal (PBool false));
                   ("model_name", CVal (PStr EmptyString)) ] |}.

(** The two ingredient lists of the formatting examples. *)
Definition flour : pyval :=
  PDict [ ("quantity", PStr "2"); ("unit", PStr "cups"); ("name", PStr "flour") ].

Definition egg : pyval :=
  PDict [ ("quantity", PStr "1"); ("unit", PStr EmptyString); ("name", PStr "egg") ].

(** The states stages 2 and 3 start from in the healthy run. *)
Definition after_search : MealPlanState :=
  merge (initial_state san_diego)
    {| upd_recipe_name := None;
       upd_ingredients := None;
       upd_instructions := None;
       upd_store_recommendations := None;
       upd_web_research_results := Some [ batch ];
       upd_sources_gathered :=
         Some [ PStr "* Thai curry : https://example.org/curry" ];
       upd_final_report := None |}.

Definition after_recipe : MealPlanState :=
  merge after_search
    {| upd_recipe_name := Some (PStr "Green Curry");
       upd_ingredients :=
         Some (PList [ PDict [ ("quantity", PStr "2"); ("unit", PStr "cups");
                               ("name", PStr "rice") ] ]);
       upd_instructions := Some (PList [ PStr "Boil rice"; PStr "Serve" ]);
       upd_store_recommendations := None;
       upd_web_research_results := None;
       upd_sources_gathered := None;
       upd_final_report := None |}.

End Script.

(* ===================================================================== *)
(** * cli.py: saving the report                                           *)
(* ===================================================================== *)

Module CliFiles.

(** [str.lower], character by character, on the code points below 256.
    Outside ASCII the real method is not a map on single characters; the
    facts proved about file names are stated for ASCII locations only. *)
Definition lower_char (c : ascii) : ascii :=
  let n := nat_of_ascii c in
  if ((65 <=? n)%nat && (n <=? 90)%nat)
     || ((192 <=? n)%nat && (n <=? 214)%nat)
     || ((216 <=? n)%nat && (n <=? 222)%nat)
  then ascii_of_nat (n + 32) else c.

Fixpoint lower (s : string) : string :=
  match s with
  | String c s' => String (lower_char c) (lower s')
  | EmptyString => EmptyString
  end.

(** [s.replace(old, new)] for one-character [old] and [new]. *)
Fixpoint replace_char (old new : ascii) (s : string) : string :=
  match s with
  | String c s' =>
      String (if Ascii.eqb c old then new else c) (replace_char old new s')
  | EmptyString => EmptyString
  end.

(** The file name [save_to_markdown] builds from the location. *)
Definition markdown_filename (location : string) : string :=
  "meal_plan_" ++ replace_char " " "_" (lower location) ++ ".md".

(** What [save_to_markdown] needs from its host: the clock, already
    formatted, and the writing of a text file. *)
Record Host : Type := mkHost {
  (** [datetime.now().strftime('%Y-%m-%d %H:%M:%S')] *)
  now_stamp : string;
  (** [open(filename, 'w', encoding='utf-8')] followed by [f.write(content)] *)
  write_text : string -> string -> result unit
}.

(** [save_to_markdown]; the value returned is the line it prints. *)
Definition save_to_markdown (H : Host) (report location : string) : result string :=
  let timestamp := "*Generated on: " ++ now_stamp H ++ "*" ++ nl ++ nl in
  let content := timestamp ++ report in
  let filename := markdown_filename location in
  _ <- write_text H filename content ;;
  Ok (nl ++ "Meal plan saved to " ++ filename).

End CliFiles.

Export CliFiles.

(* ===================================================================== *)
(** * Further scripted cases                                              *)
(* ===================================================================== *)

Module Cases.

(** An environment that sets one variable. *)
Definition env_with (name value : string) : list (string * string) :=
  [ (name, value) ].

(** The healthy world, with MAX_STORE_RECOMMENDATIONS=2 in the environment. *)
Definition env_max_two : World :=
  Script.replying (env_with "MAX_STORE_RECOMMENDATIONS" "2")
    (Ok Script.query_text) (Ok Script.recipe_text) (Ok Script.query_text)
    (Ok Script.stores_text) (Ok Script.batch).


(** A state whose second ingredient has no [name]. *)
Definition nameless_ingredient : MealPlanState :=
  merge Script.after_search
    {| upd_recipe_name := Some (PStr "Green Curry");
       upd_ingredients :=
         Some (PList [ PDict [ ("quantity", PStr "2"); ("name", PStr "rice") ];
                       PDict [ ("quantity", PStr "1"); ("unit", PStr "pinch") ] ]);
       upd_instructions := Some (PList [ PStr "Boil rice" ]);
       upd_store_recommendations := None;
       upd_web_research_results := None;
       upd_sources_gathered := None;
       upd_final_report := None |}.

(** A store given as the list of the three key names: it passes the key
    test of stage 3 although it is not a dictionary. *)
Definition key_names_store : pyval :=
  PList [ PStr "name"; PStr "address"; PStr "specialty_items" ].

(** A state that recommends one well-formed store and then that one. *)
Definition odd_store_state : MealPlanState :=
  merge Script.after_recipe
    (stores_update (PList [ Script.store "A"; key_names_store ])).

(** An environment that sets only variables the configuration does not
    read. *)
Definition unrelated_env : string -> option string :=
  fun name => lookup name [ ("HOME", "/root"); ("OPENAI_API_KEY", "sk-test") ].

End Cases.

(* ===================================================================== *)
(** * Further cases and predicates                                        *)
(* ===================================================================== *)

Module MoreCases.

(** Runs that override the maximum explicitly, with 2 and with 0. *)
Definition max_two : option RunnableConfig :=
  Some {| configurable := Some [ ("max_store_recommendations", CVal (PInt 2)) ] |}.

Definition max_zero : option RunnableConfig :=
  Some {| configurable := Some [ ("max_store_recommendations", CVal (PInt 0)) ] |}.




(** The state the report stage starts from in the healthy run. *)
Definition after_stores : MealPlanState :=
  merge Script.after_recipe
    (stores_update
       (PList [ Script.store "A"; Script.store "B"; Script.store "C" ])).

End MoreCases.

Module CliProps.

(** ASCII characters and texts. *)
Definition is_ascii (c : ascii) : bool := (nat_of_ascii c <? 128)%nat.

Fixpoint ascii_text (s : string) : bool :=
  match s with
  | String c s' => is_ascii c && ascii_text s'
  | EmptyString => true
  end.

Definition is_upper_letter (c : ascii) : bool :=
  let n := nat_of_ascii c in (65 <=? n)%nat && (n <=? 90)%nat.

(** What becomes of one character of the location in the file name: a
    space becomes an underscore, a letter A to Z its lower-case letter, any
    other character stays. *)
Definition file_char (c : ascii) : ascii :=
  if Ascii.eqb c " " then "_"%char
  else if is_upper_letter c then ascii_of_nat (nat_of_ascii c + 32)
  else c.

Fixpoint map_chars (f : ascii -> ascii) (s : string) : string :=
  match s with
  | String c s' => String (f c) (map_chars f s')
  | EmptyString => EmptyString
  end.

(** Two characters that are equal, or the two cases of one letter, or a
    space and an underscore. *)
Definition similar_char (x y : ascii) : Prop :=
  x = y \/
  (is_upper_letter x = true /\ y = ascii_of_nat (nat_of_ascii x + 32)) \/
  (is_upper_letter y = true /\ x = ascii_of_nat (nat_of_ascii y + 32)) \/
  (x = " "%char /\ y = "_"%char) \/
  (x = "_"%char /\ y = " "%char).

(** Two texts of the same length whose characters are similar one by one. *)
Inductive similar : string -> string -> Prop :=
| similar_empty : similar EmptyString EmptyString
| similar_char_step (x y : ascii) (a b : string) :
    similar_char x y -> similar a b -> similar (String x a) (String y b).

End CliProps.

Export CliProps.

(* ===================================================================== *)
(** * Predicates used in the statements                                   *)
(* ===================================================================== *)

Module Props.

(** A stage update that leaves both research lists alone. *)
Definition keeps_research_lists (u : StateUpdate) : Prop :=
  upd_web_research_results u = None /\ upd_sources_gathered u = None.

(** A report that is not empty and shows the four section headers. *)
Definition complete_report (report : string) : Prop :=
  report <> EmptyString /\
  occurs_in "## Recipe: " report /\
  occurs_in "### Recommended Stores:" report /\
  occurs_in "### Shopping List:" report /\
  occurs_in "### Cooking Instructions:" report.

(** The values [key in v] is defined on. *)
Definition container (v : pyval) : bool :=
  match v with
  | PDict _ | PList _ | PStr _ => true
  | _ => false
  end.

(** The exceptions the handlers of stages 2 and 3 catch. *)
Definition value_error (e : exn) : bool := subclass (exn_cls e) ValueError.

(** Data the report stage renders without an exception: a list of stores
    that are dictionaries whose [specialty_items] is empty or a list of
    strings, a list of ingredients that are dictionaries, and a list of
    instructions. *)
Definition strings (v : pyval) : bool :=
  match v with
  | PList l => forallb (fun x => match x with PStr _ => true | _ => false end) l
  | _ => false
  end.

Definition renderable_store (store : pyval) : bool :=
  match store with
  | PDict d =>
      let items := dict_get d "specialty_items" (PList []) in
      negb (truthy items) || strings items
  | _ => false
  end.

Definition renderable_stores (v : pyval) : bool :=
  match v with
  | PList l => forallb renderable_store l
  | _ => false
  end.

Definition renderable_ingredients (v : pyval) : bool :=
  match v with
  | PList l => forallb is_dict l
  | _ => false
  end.

Definition renderable (state : MealPlanState) : bool :=
  renderable_stores (store_recommendations state)
  && renderable_ingredients (ingredients state)
  && is_list (instructions state).

End Props.

Export Props.

(* ===================================================================== *)
(** * Properties of the Python fragment                                   *)
(* ===================================================================== *)

Module PyFacts.

(** [strip] leaves no blank at the front. *)
Lemma lstrip_head (s : string) (c : ascii) (rest : string) :
  lstrip s = String c rest -> is_space c = false.
Proof.
  induction s as [|a s IH]; simpl; [discriminate|].
  destruct (is_space a) eqn:Ea; [exact IH|].
  intros [= <- _]. exact Ea.
Qed.

(** [rstrip] keeps the first character of a string that starts with a
    non-blank. *)
Lemma rstrip_head (c : ascii) (rest : string) :
  is_space c = false ->
  exists rest', rstrip (String c rest) = String c rest'.
Proof.
  intros Hc. simpl. destruct (rstrip rest); [rewrite Hc|]; eauto.
Qed.

(** [rstrip] leaves no blank at the end. *)
Lemma rstrip_last (s front : string) (c : ascii) :
  rstrip s = front ++ String c EmptyString -> is_space c = false.
Proof.
  revert front. induction s as [|a s IH]; intros front; simpl.
  - destruct front; discriminate.
  - destruct (rstrip s) as [|b t] eqn:Er.
    + destruct (is_space a) eqn:Ea.
      * destruct front; discriminate.
      * destruct front as [|f front]; simpl.
        -- intros [= <-]. exact Ea.
        -- intros [= _ H]. destruct front; discriminate H.
    + destruct front as [|f front]; simpl.
      * intros H. discriminate H.
      * intros [= _ H]. exact (IH front H).
Qed.

(** The result of [strip] neither starts nor ends with a blank. *)
Lemma strip_trimmed (s : string) :
  (forall c rest, strip s = String c rest -> is_space c = false) /\
  (forall front c, strip s = front ++ String c EmptyString -> is_space c = false).
Proof.
  unfold strip. split.
  - intros c rest H. destruct (lstrip s) as [|a u] eqn:El; [discriminate H|].
    pose proof (lstrip_head s a u El) as Ha.
    destruct (rstrip_head a u Ha) as [rest' Hr].
    rewrite Hr in H. injection H as <- _. exact Ha.
  - intros front c. apply rstrip_last.
Qed.

(** The substring test decides [occurs_in]. *)
Lemma prefix_split (sub s : string) :
  String.prefix sub s = true <-> exists after, s = sub ++ after.
Proof.
  revert sub. induction s as [|b s IH]; intros sub; destruct sub as [|a sub]; simpl.
  - split; [exists EmptyString|]; reflexivity.
  - split; [discriminate|]. intros [after H]. discriminate H.
  - split; [exists (String b s)|]; reflexivity.
  - destruct (Ascii.ascii_dec a b) as [Hab|Hab].
    + subst b. rewrite IH. split; intros [after H]; exists after.
      * rewrite H. reflexivity.
      * injection H as H. exact H.
    + split; [discriminate|]. intros [after H]. injection H as H _.
      contradiction Hab. symmetry. exact H.
Qed.

Lemma str_contains_occurs (sub s : string) :
  str_contains sub s = true <-> occurs_in sub s.
Proof.
  unfold occurs_in. induction s as [|a s IH].
  - cbn [str_contains]. rewrite orb_false_r, prefix_split. split.
    + intros [after H]. exists EmptyString, after. exact H.
    + intros [before [after H]]. destruct before; [eauto|discriminate H].
  - cbn [str_contains]. rewrite orb_true_iff, prefix_split, IH. split.
    + intros [[after H] | [before [after H]]].
      * exists EmptyString, after. exact H.
      * exists (String a before), after. simpl. rewrite H. reflexivity.
    + intros [before [after H]]. destruct before as [|b before].
      * left. exists after. exact H.
      * right. injection H as _ H. eauto.
Qed.

Lemma forallb_perm {A : Type} (f : A -> bool) (l l' : list A) :
  Permutation l l' -> forallb f l = forallb f l'.
Proof.
  induction 1; simpl.
  - reflexivity.
  - rewrite IHPermutation. reflexivity.
  - destruct (f x), (f y); reflexivity.
  - congruence.
Qed.

Lemma allM_pure {A : Type} (f : A -> bool) (l : list A) :
  allM (fun x => Ok (f x)) l = Ok (forallb f l).
Proof.
  induction l as [|x l IH]; simpl; [reflexivity|].
  destruct (f x); [exact IH|reflexivity].
Qed.

Lemma allM_ext {A : Type} (p p' : A -> result bool) (l : list A) :
  (forall x, p x = p' x) -> allM p l = allM p' l.
Proof.
  intros H. induction l as [|x l IH]; simpl; [reflexivity|].
  rewrite H, IH. reflexivity.
Qed.

(** The key test on a container is a conjunction of membership tests. *)
Lemma keys_present_container (keys : list string) (v : pyval) :
  container v = true ->
  exists member, keys_present keys v = Ok (forallb member keys).
Proof.
  intros Hc. unfold keys_present.
  destruct v; try discriminate Hc; cbn [py_contains].
  - eexists. apply allM_pure.
  - eexists. apply (allM_pure (fun key =>
      existsb (fun x => match x with PStr s => s =? key | _ => false end) l)).
  - eexists. apply (allM_pure (fun key => has_key key d)).
Qed.

(** On anything else the first test raises, whichever key comes first. *)
Lemma keys_present_scalar (key : string) (keys : list string) (v : pyval) :
  container v = false ->
  keys_present (key :: keys) v =
  raise TypeError ("argument of type '" ++ type_name v ++ "' is not iterable").
Proof.
  intros Hc. destruct v; try discriminate Hc; reflexivity.
Qed.

(** The outcome of the key test does not depend on the order in which the
    keys are visited. *)
Lemma keys_present_perm (keys keys' : list string) (v : pyval) :
  Permutation keys keys' -> keys_present keys v = keys_present keys' v.
Proof.
  intros Hp. destruct (container v) eqn:Hc.
  - destruct v; try discriminate Hc; unfold keys_present; cbn [py_contains].
    + rewrite (allM_pure (fun key => str_contains key s) keys),
              (allM_pure (fun key => str_contains key s) keys').
      f_equal. apply forallb_perm, Hp.
    + rewrite (allM_pure (fun key =>
                existsb (fun x => match x with PStr s => s =? key | _ => false end) l) keys),
              (allM_pure (fun key =>
                existsb (fun x => match x with PStr s => s =? key | _ => false end) l) keys').
      f_equal. apply forallb_perm, Hp.
    + rewrite (allM_pure (fun key => has_key key d) keys),
              (allM_pure (fun key => has_key key d) keys').
      f_equal. apply forallb_perm, Hp.
  - destruct keys as [|k keys].
    + apply Permutation_nil in Hp. subst keys'. reflexivity.
    + destruct keys' as [|k' keys'].
      * apply Permutation_sym, Permutation_nil in Hp. discriminate Hp.
      * rewrite !keys_present_scalar by exact Hc. reflexivity.
Qed.

End PyFacts.

(* ===================================================================== *)
(** * Properties of configuration.py                                      *)
(* ===================================================================== *)

Module ConfigFacts.

Section Resolution.

Variable environ : string -> option string.
Variable config : option RunnableConfig.

(** What survives the truthiness filter under a given field name. *)
Lemma lookup_values (f : string -> cfgval) (names : list string) (name : string) :
  lookup name
    (filter (fun kv => cfg_truthy (snd kv)) (map (fun n => (n, f n)) names))
  = if existsb (fun n => n =? name) names && cfg_truthy (f name)
    then Some (f name) else None.
Proof.
  induction names as [|n names IH]; simpl; [reflexivity|].
  destruct (n =? name) eqn:En.
  - apply String.eqb_eq in En. subst n.
    destruct (cfg_truthy (f name)) eqn:Et; simpl.
    + rewrite String.eqb_refl. reflexivity.
    + rewrite IH, andb_false_r. reflexivity.
  - destruct (cfg_truthy (f n)); simpl; [rewrite En|]; exact IH.
Qed.

(** The constructor reads each declared field from its keyword argument. *)
Lemma getattr_cls (kwargs : list (string * cfgval)) (name : string)
    (default : cfgval) :
  getattr defaults name = Some default ->
  getattr (cls kwargs) name = Some (kwarg kwargs name default).
Proof.
  unfold getattr.
  repeat match goal with
  | |- context [if ?n =? ?lit then _ else _] =>
      let E := fresh "E" in
      destruct (n =? lit) eqn:E;
      [ apply String.eqb_eq in E; subst; intros [= <-]; reflexivity | ]
  end.
  intros H; discriminate H.
Qed.

Lemma declared_field (name : string) (default : cfgval) :
  getattr defaults name = Some default ->
  existsb (fun n => n =? name) fields = true.
Proof.
  unfold getattr.
  repeat match goal with
  | |- context [if ?n =? ?lit then _ else _] =>
      let E := fresh "E" in
      destruct (n =? lit) eqn:E;
      [ apply String.eqb_eq in E; subst; reflexivity | ]
  end.
  intros H; discriminate H.
Qed.

(** A declared field holds its raw value when that value is true, and its
    default otherwise. *)
Lemma resolved_field (name : string) (default : cfgval) :
  getattr defaults name = Some default ->
  getattr (from_runnable_config environ config) name =
  Some (if cfg_truthy (raw_value environ config name)
        then raw_value environ config name else default).
Proof.
  intros Hd. unfold from_runnable_config, values.
  rewrite (getattr_cls _ _ _ Hd). unfold kwarg.
  rewrite (lookup_values (raw_value environ config)).
  rewrite (declared_field _ _ Hd). simpl.
  destruct (cfg_truthy (raw_value environ config name)); reflexivity.
Qed.

End Resolution.

(** C3, as stated, fails: with MODEL_NAME set in the environment and
    [model_name] overridden explicitly for the run, the specification's order
    picks the explicit value while [from_runnable_config] picks the one of
    the environment. *)
Lemma explicit_override_loses_to_environment :
  spec_resolution Script.env_model Script.explicit_model "model_name"
    = Some (CVal (PStr "explicit-model")) /\
  getattr (from_runnable_config Script.env_model Script.explicit_model) "model_name"
    = Some (CVal (PStr "env-model")) /\
  getattr (from_runnable_config Script.env_model Script.explicit_model) "model_name"
    <> spec_resolution Script.env_model Script.explicit_model "model_name".
Proof.
  split; [reflexivity|]. split; [reflexivity|].
  intros H. vm_compute in H. discriminate H.
Qed.

(** C3 (amended): for every configuration field, the resolved value is the
    environment variable named by upper-casing the field name when that
    variable is set to a non-empty string; when the variable is not set, it is
    the explicit per-run override if that is a true value; in every other
    case it is the built-in default. The environment outranks the explicit
    override. *)
Theorem resolution_order (environ : string -> option string)
    (config : option RunnableConfig) (name : string) (default : cfgval) :
  getattr defaults name = Some default ->
  getattr (from_runnable_config environ config) name =
  Some (match environ (upper name) with
        | Some s => if s =? EmptyString then default else CVal (PStr s)
        | None =>
            match lookup name (configurable_of config) with
            | Some v => if cfg_truthy v then v else default
            | None => default
            end
        end).
Proof.
  intros Hd. rewrite (resolved_field _ _ _ _ Hd).
  unfold raw_value, explicit.
  destruct (environ (upper name)) as [s|]; simpl.
  - destruct (s =? EmptyString); reflexivity.
  - destruct (lookup name (configurable_of config)) as [v|]; simpl;
      [destruct (cfg_truthy v)|]; reflexivity.
Qed.

Lemma resolution_order_witness :
  getattr defaults "model_name" = Some (CVal (PStr "gpt-4-0125-preview")) /\
  getattr (from_runnable_config Script.env_model Script.explicit_model) "model_name"
    = Some (CVal (PStr "env-model")).
Proof.
  split; [reflexivity|].
  exact (resolution_order Script.env_model Script.explicit_model "model_name"
           (CVal (PStr "gpt-4-0125-preview")) eq_refl).
Defined.

(** C10: a field whose value, taken from the environment or else from the
    explicit override, is false in the Python sense (empty string, 0, False,
    None) is dropped, and the field holds its built-in default. *)
Theorem falsy_value_yields_default (environ : string -> option string)
    (config : option RunnableConfig) (name : string) (default : cfgval) :
  getattr defaults name = Some default ->
  cfg_truthy (raw_value environ config name) = false ->
  getattr (from_runnable_config environ config) name = Some default.
Proof.
  intros Hd Hf. rewrite (resolved_field _ _ _ _ Hd), Hf. reflexivity.
Qed.

(** The examples of C10: explicit 0, False and the empty string give the
    defaults 3, True and the default model name. *)
Lemma falsy_value_yields_default_witness :
  getattr (from_runnable_config Script.no_env Script.zero_and_false)
    "max_store_recommendations" = Some (CVal (PInt 3)) /\
  getattr (from_runnable_config Script.no_env Script.zero_and_false)
    "include_price_estimates" = Some (CVal (PBool true)) /\
  getattr (from_runnable_config Script.no_env Script.zero_and_false)
    "model_name" = Some (CVal (PStr "gpt-4-0125-preview")).
Proof.
  split; [|split].
  - exact (falsy_value_yields_default Script.no_env Script.zero_and_false
             "max_store_recommendations" (CVal (PInt 3)) eq_refl eq_refl).
  - exact (falsy_value_yields_default Script.no_env Script.zero_and_false
             "include_price_estimates" (CVal (PBool true)) eq_refl eq_refl).
  - exact (falsy_value_yields_default Script.no_env Script.zero_and_false
             "model_name" (CVal (PStr "gpt-4-0125-preview")) eq_refl eq_refl).
Defined.

End ConfigFacts.

(* ===================================================================== *)
(** * Properties of meal_utils.py                                         *)
(* ===================================================================== *)

Module MealUtilsFacts.

Lemma mapM_ok {A B : Type} (f : A -> result B) (g : A -> B) (l : list A) :
  (forall x, In x l -> f x = Ok (g x)) -> mapM f l = Ok (map g l).
Proof.
  induction l as [|x l IH]; intros H; simpl; [reflexivity|].
  rewrite (H x (or_introl eq_refl)). simpl.
  rewrite IH by (intros y Hy; apply H; right; exact Hy).
  reflexivity.
Qed.

Section Formatting.

Variable W : World.

(** The line of an ingredient that is a dictionary: never an exception. *)
Lemma ingredient_line_dict (d : list (string * pyval)) :
  ingredient_line W (PDict d) =
  Ok (strip ("- " ++ py_str W (dict_get d "quantity" (PStr EmptyString)) ++ " "
                  ++ py_str W (dict_get d "unit" (PStr EmptyString)) ++ " "
                  ++ py_str W (dict_get d "name" (PStr EmptyString)))).
Proof. reflexivity. Qed.

End Formatting.

(** C4, as stated, fails: the ingredient with an empty unit is rendered with
    two spaces between quantity and name, not one. *)
Lemma empty_unit_leaves_double_space :
  format_ingredients_list Script.healthy (PList [ Script.egg ]) = Ok "- 1  egg" /\
  format_ingredients_list Script.healthy (PList [ Script.egg ]) <> Ok "- 1 egg".
Proof.
  split; [reflexivity|]. intros H. vm_compute in H. discriminate H.
Qed.

(** C4 (amended): the shopping-list formatter maps each ingredient
    [{quantity, unit, name}] to one line, the text
    [- <quantity> <unit> <name>] with the surrounding whitespace of the whole
    line trimmed, and joins the lines with newlines in the order of the
    list; a blank component is not omitted, it keeps its separating space.
    The ingredient 2 / cups / flour gives exactly [- 2 cups flour]; the
    ingredient 1 / (empty unit) / egg gives [- 1  egg], with two spaces. *)
Theorem shopping_list_lines (W : World) :
  (forall items : list (list (string * pyval)),
     format_ingredients_list W (PList (map PDict items)) =
     Ok (join nl
           (map (fun d =>
                   strip ("- " ++ py_str W (dict_get d "quantity" (PStr EmptyString))
                            ++ " " ++ py_str W (dict_get d "unit" (PStr EmptyString))
                            ++ " " ++ py_str W (dict_get d "name" (PStr EmptyString))))
                items))) /\
  format_ingredients_list W (PList [ Script.flour ]) = Ok "- 2 cups flour" /\
  format_ingredients_list W (PList [ Script.egg ]) = Ok "- 1  egg".
Proof.
  split; [|split; reflexivity].
  intros items. unfold format_ingredients_list. simpl.
  rewrite (mapM_ok (ingredient_line W)
             (fun v => match v with
                       | PDict d =>
                           strip ("- " ++ py_str W (dict_get d "quantity" (PStr EmptyString))
                                    ++ " " ++ py_str W (dict_get d "unit" (PStr EmptyString))
                                    ++ " " ++ py_str W (dict_get d "name" (PStr EmptyString)))
                       | _ => EmptyString
                       end)).
  - simpl. rewrite map_map. reflexivity.
  - intros x Hx. apply in_map_iff in Hx. destruct Hx as [d [<- _]].
    apply ingredient_line_dict.
Qed.

End MealUtilsFacts.

(* ===================================================================== *)
(** * Properties of the report template                                   *)
(* ===================================================================== *)

Module ReportFacts.

Lemma append_assoc (a b c : string) : (a ++ b) ++ c = a ++ (b ++ c).
Proof.
  induction a as [|ch a IH]; simpl; [reflexivity|]. rewrite IH. reflexivity.
Qed.

Lemma occurs_in_here (sub rest : string) : occurs_in sub (sub ++ rest).
Proof. exists EmptyString, rest. reflexivity. Qed.

Lemma occurs_in_after (sub a s : string) :
  occurs_in sub s -> occurs_in sub (a ++ s).
Proof.
  intros [before [after ->]]. exists (a ++ before), after.
  rewrite append_assoc. reflexivity.
Qed.

(** The template, cut at its headers. *)
Lemma template_shape (recipe_name stores shopping steps : string) :
  FINAL_REPORT_TEMPLATE recipe_name stores shopping steps =
  ("# Meal Planning Report" ++ nl ++ nl) ++ "## Recipe: " ++ recipe_name ++
  (nl ++ nl) ++ "### Recommended Stores:" ++ nl ++ stores ++
  (nl ++ nl) ++ "### Shopping List:" ++ nl ++ shopping ++
  (nl ++ nl) ++ "### Cooking Instructions:" ++ nl ++ steps ++
  (nl ++ nl ++ "*All store recommendations and prices are approximate. Please call ahead to confirm availability.*" ++ nl).
Proof. reflexivity. Qed.

(** Whatever is substituted, the rendered template is not empty and shows
    the four headers. *)
Lemma template_complete (recipe_name stores shopping steps : string) :
  complete_report (FINAL_REPORT_TEMPLATE recipe_name stores shopping steps).
Proof.
  unfold complete_report. split; [discriminate|].
  rewrite template_shape.
  repeat split.
  - apply occurs_in_after, occurs_in_here.
  - do 4 apply occurs_in_after. apply occurs_in_here.
  - do 8 apply occurs_in_after. apply occurs_in_here.
  - do 12 apply occurs_in_after. apply occurs_in_here.
Qed.

End ReportFacts.

(* ===================================================================== *)
(** * Properties of the stages                                            *)
(* ===================================================================== *)

Module StageFacts.

(** One case split on the next call, test or match of a hypothesis that says
    a computation returned; branches that raised are closed. *)
Ltac next_case H :=
  match type of H with
  | context [bind ?x _] =>
      let E := fresh "E" in destruct x eqn:E; simpl in H
  | context [if ?b then _ else _] =>
      let E := fresh "E" in destruct b eqn:E; simpl in H
  | context [match ?x with _ => _ end] =>
      let E := fresh "E" in destruct x eqn:E; simpl in H
  end; try discriminate H.

Ltac all_cases H := repeat next_case H.

(** The same, on every hypothesis that says something returned. *)
Ltac all_returns :=
  repeat match goal with
  | H : _ = Ok _ |- _ => progress (next_case H)
  end.

Lemma merge_keeps (state : MealPlanState) (u : StateUpdate) :
  keeps_research_lists u ->
  web_research_results (merge state u) = web_research_results state /\
  sources_gathered (merge state u) = sources_gathered state.
Proof.
  intros [Hw Hs]. unfold merge; simpl. rewrite Hw, Hs. split; reflexivity.
Qed.

Section Stage1.

Variable W : World.
Variable config : option RunnableConfig.

(** Every exception class is caught by the handler of stage 1. *)
Lemma stage1_handler_catches_all (e : exn) :
  existsb (subclass (exn_cls e)) [ JSONDecodeError; ValueError; PyException ] = true.
Proof. simpl. rewrite !orb_true_r. reflexivity. Qed.

Lemma search_recipes_outcome (state : MealPlanState) :
  search_recipes W state config =
  match search_recipes_try W state config with
  | Ok u => Ok u
  | Raise e => Ok (failed_search e)
  end.
Proof.
  unfold search_recipes, try_except.
  destruct (search_recipes_try W state config) as [u|e]; [reflexivity|].
  rewrite stage1_handler_catches_all. reflexivity.
Qed.

(** On its success path stage 1 returns one batch and one source. *)
Lemma search_recipes_try_one_batch (state : MealPlanState) (u : StateUpdate) :
  search_recipes_try W state config = Ok u ->
  exists batch source,
    upd_web_research_results u = Some [ batch ] /\
    upd_sources_gathered u = Some [ source ].
Proof.
  unfold search_recipes_try. intros H. all_cases H.
  injection H as <-. simpl. eauto.
Qed.

Lemma search_recipes_one_batch (state : MealPlanState) :
  exists u batch source,
    search_recipes W state config = Ok u /\
    upd_web_research_results u = Some [ batch ] /\
    upd_sources_gathered u = Some [ source ].
Proof.
  rewrite search_recipes_outcome.
  destruct (search_recipes_try W state config) as [u|e] eqn:E.
  - destruct (search_recipes_try_one_batch _ _ E) as [b [s [Hb Hs]]].
    exists u, b, s. auto.
  - eexists. eexists. eexists. split; [reflexivity|]. split; reflexivity.
Qed.

End Stage1.

Section LaterStages.

Variable W : World.
Variable config : option RunnableConfig.

Lemma parse_recipe_keeps (state : MealPlanState) (u : StateUpdate) :
  parse_recipe W state config = Ok u -> keeps_research_lists u.
Proof.
  unfold parse_recipe, try_except, parse_recipe_try. intros H. all_cases H;
    injection H as <-; split; reflexivity.
Qed.

Lemma find_stores_keeps (state : MealPlanState) (u : StateUpdate) :
  find_stores W state config = Ok u -> keeps_research_lists u.
Proof.
  unfold find_stores. intros H.
  destruct (find_stores_query W state config) as [[[c llm] sc]|e]; simpl in H;
    [|discriminate H].
  unfold try_except, find_stores_try in H. all_cases H; all_returns;
    repeat match goal with
    | H : Ok _ = Ok _ |- _ => injection H as <-
    end; split; reflexivity.
Qed.

Lemma create_report_keeps (state : MealPlanState) (u : StateUpdate) :
  create_report W state = Ok u -> keeps_research_lists u.
Proof.
  unfold create_report. intros H. all_cases H.
  injection H as <-. split; reflexivity.
Qed.

(** A step of any node but the first leaves both lists as they are. *)
Lemma later_step_keeps (n : node) (state state' : MealPlanState) :
  n <> n_search_recipes ->
  step W config n state = Ok state' ->
  web_research_results state' = web_research_results state /\
  sources_gathered state' = sources_gathered state.
Proof.
  intros Hn H. unfold step in H.
  destruct (run_node W n state config) as [u|e] eqn:E; simpl in H;
    [|discriminate H].
  injection H as <-. apply merge_keeps.
  destruct n; simpl in E.
  - contradiction Hn; reflexivity.
  - exact (parse_recipe_keeps _ _ E).
  - exact (find_stores_keeps _ _ E).
  - exact (create_report_keeps _ _ E).
Qed.

(** A step of any node only appends to the two lists. *)
Lemma step_appends (n : node) (state state' : MealPlanState) :
  step W config n state = Ok state' ->
  exists batches sources,
    web_research_results state' = (web_research_results state ++ batches)%list /\
    sources_gathered state' = (sources_gathered state ++ sources)%list.
Proof.
  intros H. destruct n.
  - unfold step in H. simpl in H.
    destruct (search_recipes_one_batch W config state) as [u [b [s [Hu [Hb Hs]]]]].
    rewrite Hu in H. simpl in H. injection H as <-.
    exists [ b ], [ s ]. unfold merge; simpl. rewrite Hb, Hs. split; reflexivity.
  - destruct (later_step_keeps n_parse_recipe _ _ ltac:(discriminate) H) as [-> ->].
    exists [], []. rewrite !app_nil_r. split; reflexivity.
  - destruct (later_step_keeps n_find_stores _ _ ltac:(discriminate) H) as [-> ->].
    exists [], []. rewrite !app_nil_r. split; reflexivity.
  - destruct (later_step_keeps n_create_report _ _ ltac:(discriminate) H) as [-> ->].
    exists [], []. rewrite !app_nil_r. split; reflexivity.
Qed.

Lemma run_nodes_appends (ns : list node) (state state' : MealPlanState) :
  run_nodes W config ns state = Ok state' ->
  exists batches sources,
    web_research_results state' = (web_research_results state ++ batches)%list /\
    sources_gathered state' = (sources_gathered state ++ sources)%list.
Proof.
  revert state. induction ns as [|n ns IH]; intros state H; simpl in H.
  - injection H as <-. exists [], []. rewrite !app_nil_r. split; reflexivity.
  - destruct (step W config n state) as [mid|e] eqn:E; simpl in H;
      [|discriminate H].
    destruct (step_appends _ _ _ E) as [b1 [s1 [Hb1 Hs1]]].
    destruct (IH _ H) as [b2 [s2 [Hb2 Hs2]]].
    exists (b1 ++ b2)%list, (s1 ++ s2)%list.
    rewrite Hb2, Hs2, Hb1, Hs1, <- !app_assoc. split; reflexivity.
Qed.

End LaterStages.

(** C6: stage 1 never raises. Whatever is raised inside its body (a JSON
    parse failure, a reply that is not an object with a [query] key, empty
    search results, or any other exception) is replaced by a batch of one
    entry whose content is the fixed prefix followed by the failure message,
    together with the single source entry [Search failed]. *)
Theorem search_recipes_never_raises (W : World) (state : MealPlanState)
    (config : option RunnableConfig) :
  (exists u, search_recipes W state config = Ok u) /\
  (forall e,
      search_recipes_try W state config = Raise e ->
      search_recipes W state config = Ok (failed_search e) /\
      upd_web_research_results (failed_search e) =
        Some [ PDict [ ("results",
                 PList [ PDict [ ("title", PStr "Error in search");
                                 ("content",
                                  PStr ("Failed to search for recipes: " ++ exn_str e));
                                 ("url", PStr EmptyString) ] ]) ] ] /\
      upd_sources_gathered (failed_search e) = Some [ PStr "Search failed" ]) /\
  (forall llm content,
      ChatOpenAI W (model_name (from_runnable_config (environ W) config)) 0 = Ok llm ->
      llm_invoke W llm (recipe_search_prompt state) "Generate a recipe search query:"
        = Ok content ->
      (forall e,
          json_loads W content = Raise e ->
          search_recipes_try W state config = Raise e) /\
      (forall query,
          json_loads W content = Ok query ->
          (forall d, query = PDict d -> has_key "query" d = false) ->
          search_recipes_try W state config
            = Raise (mk_exn ValueError "Invalid query format from LLM")) /\
      (forall d q results,
          json_loads W content = Ok (PDict d) ->
          lookup "query" d = Some q ->
          web_search W (from_runnable_config (environ W) config) q = Ok results ->
          truthy results = false ->
          search_recipes_try W state config
            = Raise (mk_exn ValueError "No search results found"))).
Proof.
  split; [|split].
  - rewrite search_recipes_outcome.
    destruct (search_recipes_try W state config); eauto.
  - intros e He. rewrite search_recipes_outcome, He. repeat split.
  - intros llm content Hllm Hreply. unfold search_recipes_try.
    rewrite Hllm. simpl. rewrite Hreply. simpl. split; [|split].
    + intros e He. rewrite He. reflexivity.
    + intros query Hq Hkey. rewrite Hq. simpl.
      destruct query; simpl; try reflexivity.
      rewrite (Hkey d eq_refl). reflexivity.
    + intros d q results Hq Hl Hs Ht. rewrite Hq. simpl.
      unfold has_key. rewrite Hl. simpl. rewrite Hs. simpl. rewrite Ht.
      reflexivity.
Qed.

(** A reply that is not JSON, a reply without [query] and an empty search
    result, each turned into the synthetic batch. *)
Lemma search_recipes_never_raises_witness :
  search_recipes Script.bad_recipe_query (initial_state Script.san_diego)
    Script.cli_config
    = Ok (failed_search
            (mk_exn JSONDecodeError "Expecting value: line 1 column 1 (char 0)")) /\
  search_recipes Script.no_query_key (initial_state Script.san_diego)
    Script.cli_config
    = Ok (failed_search (mk_exn ValueError "Invalid query format from LLM")) /\
  search_recipes Script.search_empty (initial_state Script.san_diego)
    Script.cli_config
    = Ok (failed_search (mk_exn ValueError "No search results found")).
Proof.
  split; [|split].
  - destruct (search_recipes_never_raises Script.bad_recipe_query
                (initial_state Script.san_diego) Script.cli_config)
      as [_ [Hcatch Hnamed]].
    destruct (Hnamed _ _ eq_refl eq_refl) as [Hjson _].
    exact (proj1 (Hcatch _ (Hjson _ eq_refl))).
  - destruct (search_recipes_never_raises Script.no_query_key
                (initial_state Script.san_diego) Script.cli_config)
      as [_ [Hcatch Hnamed]].
    destruct (Hnamed _ _ eq_refl eq_refl) as [_ [Hkey _]].
    refine (proj1 (Hcatch _ (Hkey _ eq_refl _))).
    intros d [= <-]. reflexivity.
  - destruct (search_recipes_never_raises Script.search_empty
                (initial_state Script.san_diego) Script.cli_config)
      as [_ [Hcatch Hnamed]].
    destruct (Hnamed _ _ eq_refl eq_refl) as [_ [_ Hempty]].
    exact (proj1 (Hcatch _ (Hempty _ _ _ eq_refl eq_refl eq_refl eq_refl))).
Defined.

Section StoreStage.

Variable W : World.
Variable config : option RunnableConfig.

(** The configuration stage 3 works with is the resolved one. *)
Lemma find_stores_query_configuration (state : MealPlanState)
    (c : Configuration) (llm : ChatModel) (sc : string) :
  find_stores_query W state config = Ok (c, llm, sc) ->
  c = from_runnable_config (environ W) config.
Proof.
  unfold find_stores_query. intros H. all_cases H.
  injection H as <- _ _. reflexivity.
Qed.

(** On a list of complete stores the validation loop runs to its end. *)
Lemma check_all_complete (l : list pyval) :
  Forall (fun store => keys_present store_required_keys store = Ok true) l ->
  forM_ (check_store W) l = Ok tt.
Proof.
  induction 1 as [|store l Hs _ IH]; simpl; [reflexivity|].
  unfold check_store at 1. rewrite Hs. simpl. exact IH.
Qed.

(** The loop stops with a [ValueError] at the first incomplete store. *)
Lemma check_first_incomplete (before after : list pyval) (store : pyval) :
  Forall (fun s => keys_present store_required_keys s = Ok true) before ->
  keys_present store_required_keys store = Ok false ->
  forM_ (check_store W) (before ++ store :: after)%list =
  raise ValueError ("Store missing required keys: " ++ py_str W store).
Proof.
  induction 1 as [|s l Hs _ IH]; intros Hstore; simpl.
  - unfold check_store. rewrite Hstore. reflexivity.
  - unfold check_store at 1. rewrite Hs. simpl. exact (IH Hstore).
Qed.

(** Among containers, an incomplete element anywhere makes the loop raise a
    [ValueError]. *)
Lemma check_containers (l : list pyval) :
  forallb container l = true ->
  (exists store, In store l /\ keys_present store_required_keys store = Ok false) ->
  exists store, forM_ (check_store W) l =
    raise ValueError ("Store missing required keys: " ++ py_str W store).
Proof.
  induction l as [|s l IH]; intros Hc [store [Hin Hstore]]; [contradiction|].
  simpl in Hc. apply andb_true_iff in Hc. destruct Hc as [Hs Hl].
  destruct (PyFacts.keys_present_container store_required_keys s Hs) as [member Hb].
  remember (forallb member store_required_keys) as b eqn:Eb. clear Eb.
  simpl. unfold check_store at 1. rewrite Hb. destruct b; simpl.
  - apply IH; [exact Hl|]. destruct Hin as [-> | Hin].
    + rewrite Hb in Hstore. discriminate Hstore.
    + exists store. split; assumption.
  - exists s. reflexivity.
Qed.

(** The success path of stage 3, once the reply is a dictionary whose
    [stores] entry is a list. *)
Lemma find_stores_on_list (state : MealPlanState) (llm : ChatModel)
    (sc content : string) (d : list (string * pyval)) (l : list pyval) :
  find_stores_query W state config
    = Ok (from_runnable_config (environ W) config, llm, sc) ->
  llm_invoke W llm (store_prompt sc)
    "Extract and format the store information as JSON:" = Ok content ->
  json_loads W content = Ok (PDict d) ->
  lookup "stores" d = Some (PList l) ->
  find_stores W state config =
  try_except
    (_ <- forM_ (check_store W) l ;;
     kept <- py_slice_to l
               (max_store_recommendations (from_runnable_config (environ W) config)) ;;
     Ok (stores_update (PList kept)))
    [ JSONDecodeError; ValueError ]
    (fun _ => Ok (stores_update (PList [ fallback_store (location state) ]))).
Proof.
  intros Hq Hreply Hjson Hl. unfold find_stores. rewrite Hq. simpl.
  unfold find_stores_try. rewrite Hreply. simpl.
  rewrite Hjson. simpl. unfold has_key. rewrite Hl. simpl. reflexivity.
Qed.

End StoreStage.

Section RecipeStage.

Variable W : World.
Variable config : option RunnableConfig.

(** The handler of stages 2 and 3 catches exactly the [ValueError] family. *)
Lemma narrow_handler (e : exn) :
  existsb (subclass (exn_cls e)) [ JSONDecodeError; ValueError ] = value_error e.
Proof.
  unfold value_error. destruct e as [c msg]. destruct c; reflexivity.
Qed.

(** Stage 2, from the model's reply on. *)
Lemma parse_recipe_from_reply (state : MealPlanState) (llm : ChatModel)
    (batch : pyval) (sc content : string) :
  ChatOpenAI W (model_name (from_runnable_config (environ W) config)) 0 = Ok llm ->
  py_last (web_research_results state) = Ok batch ->
  search_content_of W batch = Ok sc ->
  llm_invoke W llm (parse_prompt sc)
    "Extract and format the recipe information as JSON:" = Ok content ->
  parse_recipe W state config =
  try_except (parse_recipe_try W content) [ JSONDecodeError; ValueError ]
    (fun _ => Ok fallback_recipe).
Proof.
  intros Hllm Hlast Hsc Hreply. unfold parse_recipe.
  rewrite Hllm. simpl. rewrite Hlast. simpl. rewrite Hsc. simpl.
  rewrite Hreply. reflexivity.
Qed.

(** A reply that does not parse, or that parses to a container without one
    of the three keys, is replaced by the fallback recipe. *)
Lemma unusable_recipe_falls_back (content : string) :
  (exists e, json_loads W content = Raise e /\ value_error e = true) \/
  (exists v, json_loads W content = Ok v /\
             keys_present recipe_required_keys v = Ok false) ->
  try_except (parse_recipe_try W content) [ JSONDecodeError; ValueError ]
    (fun _ => Ok fallback_recipe) = Ok fallback_recipe.
Proof.
  unfold try_except, parse_recipe_try.
  intros [[e [He Hv]] | [v [Hv Hk]]].
  - rewrite He. cbn [bind]. rewrite narrow_handler, Hv. reflexivity.
  - rewrite Hv. cbn [bind]. rewrite Hk. reflexivity.
Qed.

(** A reply that parses to a scalar makes the key test itself raise a
    [TypeError], which the handler does not catch. *)
Lemma scalar_recipe_escapes (content : string) (v : pyval) :
  json_loads W content = Ok v ->
  container v = false ->
  try_except (parse_recipe_try W content) [ JSONDecodeError; ValueError ]
    (fun _ => Ok fallback_recipe)
  = raise TypeError ("argument of type '" ++ type_name v ++ "' is not iterable").
Proof.
  intros Hv Hc. unfold try_except, parse_recipe_try. rewrite Hv.
  destruct v; try discriminate Hc; reflexivity.
Qed.

End RecipeStage.

(** C7 (defect): the recipe-extraction reply [42] is valid JSON and has none
    of the three keys, yet stage 2 does not return its fallback recipe: the
    key test raises a [TypeError], which escapes the stage and ends the
    run. A reply that is not JSON, and an object without [instructions], do
    give the fallback recipe. *)
Theorem scalar_recipe_reply_raises :
  json_loads Script.scalar_recipe "42" = Ok (PInt 42) /\
  parse_recipe Script.scalar_recipe Script.after_search Script.cli_config
    = Raise (mk_exn TypeError "argument of type 'int' is not iterable") /\
  invoke Script.scalar_recipe Script.san_diego Script.cli_config
    = Raise (mk_exn TypeError "argument of type 'int' is not iterable") /\
  parse_recipe Script.bad_recipe_reply Script.after_search Script.cli_config
    = Ok fallback_recipe /\
  parse_recipe Script.partial_recipe Script.after_search Script.cli_config
    = Ok fallback_recipe.
Proof. repeat split; vm_compute; reflexivity. Qed.

Section StoreFallback.

Variable W : World.
Variable config : option RunnableConfig.

(** A store list of containers with an incomplete element gives the single
    fallback store, whose address ends with the location. *)
Lemma incomplete_store_falls_back (state : MealPlanState) (llm : ChatModel)
    (sc content : string) (d : list (string * pyval)) (l : list pyval) :
  find_stores_query W state config
    = Ok (from_runnable_config (environ W) config, llm, sc) ->
  llm_invoke W llm (store_prompt sc)
    "Extract and format the store information as JSON:" = Ok content ->
  json_loads W content = Ok (PDict d) ->
  lookup "stores" d = Some (PList l) ->
  forallb container l = true ->
  (exists store, In store l /\ keys_present store_required_keys store = Ok false) ->
  find_stores W state config
    = Ok (stores_update
            (PList [ PDict [ ("name", PStr "Local Grocery Store");
                             ("address",
                              PStr ("Search for grocery stores near " ++ location state));
                             ("specialty_items",
                              PList [ PStr "Unable to parse store data" ]) ] ])).
Proof.
  intros Hq Hreply Hjson Hl Hc Hmiss.
  rewrite (find_stores_on_list W config state llm sc content d l Hq Hreply Hjson Hl).
  destruct (check_containers W l Hc Hmiss) as [store ->]. reflexivity.
Qed.

End StoreFallback.

(** C8 (defect): the extracted list [null, {name: A}] has an element
    without [address] and [specialty_items], yet stage 3 does not return the
    fallback store: the key test on [null] raises a [TypeError], which
    escapes the stage and ends the run. A list whose elements are all
    objects, one of them without [specialty_items], does give the single
    fallback store. *)
Theorem null_store_element_raises :
  json_loads Script.null_store Script.null_then_partial_text
    = Ok (PDict [ ("stores", PList [ PNone; PDict [ ("name", PStr "A") ] ]) ]) /\
  keys_present store_required_keys (PDict [ ("name", PStr "A") ]) = Ok false /\
  find_stores Script.null_store Script.after_recipe Script.cli_config
    = Raise (mk_exn TypeError "argument of type 'NoneType' is not iterable") /\
  invoke Script.null_store Script.san_diego Script.cli_config
    = Raise (mk_exn TypeError "argument of type 'NoneType' is not iterable") /\
  find_stores Script.partial_store Script.after_recipe Script.cli_config
    = Ok (stores_update (PList [ fallback_store "San Diego" ])).
Proof. repeat split; vm_compute; reflexivity. Qed.

Section Asymmetry.

Variable W : World.
Variable config : option RunnableConfig.



End Asymmetry.


Section Report.

Variable W : World.

Lemma mapM_total {A B : Type} (f : A -> result B) (l : list A) :
  (forall x, In x l -> exists y, f x = Ok y) -> exists ys, mapM f l = Ok ys.
Proof.
  induction l as [|x l IH]; intros H; simpl; [eauto|].
  destruct (H x (or_introl eq_refl)) as [y ->].
  destruct IH as [ys ->]; [intros z Hz; apply H; right; exact Hz|].
  simpl. eauto.
Qed.

Lemma str_items_strings (i : nat) (l : list pyval) :
  forallb (fun x => match x with PStr _ => true | _ => false end) l = true ->
  exists strs, str_items i l = Ok strs.
Proof.
  revert i. induction l as [|x l IH]; intros i H; simpl; [eauto|].
  simpl in H. apply andb_true_iff in H. destruct H as [Hx Hl].
  destruct x; try discriminate Hx.
  destruct (IH (S i) Hl) as [strs ->]. simpl. eauto.
Qed.

Lemma py_join_strings (sep : string) (v : pyval) :
  strings v = true -> exists s, py_join sep v = Ok s.
Proof.
  destruct v; try discriminate. cbn [strings]. intros Hs.
  unfold py_join. cbn [py_iter].
  destruct (str_items_strings 0 l Hs) as [strs ->].
  cbn [bind]. eauto.
Qed.

Lemma store_block_total (store : pyval) :
  renderable_store store = true -> exists block, store_block W store = Ok block.
Proof.
  destruct store; try discriminate. simpl. intros Hr. unfold store_block. simpl.
  destruct (truthy (dict_get d "specialty_items" (PList []))) eqn:Et; [|eauto].
  simpl in Hr.
  destruct (py_join_strings ", " _ Hr) as [joined ->]. simpl. eauto.
Qed.

Lemma generate_final_report_total (state : MealPlanState) :
  renderable state = true -> exists report, generate_final_report W state = Ok report.
Proof.
  unfold renderable. intros H.
  apply andb_true_iff in H. destruct H as [H Hsteps].
  apply andb_true_iff in H. destruct H as [Hstores Hingredients].
  unfold generate_final_report, format_store_recommendations, format_ingredients_list.
  destruct (store_recommendations state) as [| | | | |stores|]; try discriminate Hstores.
  destruct (ingredients state) as [| | | | |items|]; try discriminate Hingredients.
  destruct (instructions state) as [| | | | |steps|]; try discriminate Hsteps.
  simpl in *.
  destruct (mapM_total (store_block W) stores) as [blocks ->].
  { intros x Hx. apply store_block_total.
    rewrite forallb_forall in Hstores. exact (Hstores x Hx). }
  destruct (mapM_total (ingredient_line W) items) as [lines ->].
  { intros x Hx. rewrite forallb_forall in Hingredients.
    specialize (Hingredients x Hx). destruct x; try discriminate Hingredients.
    eexists. reflexivity. }
  simpl. eauto.
Qed.

(** Whenever the report stage returns, its report is complete. *)
Lemma create_report_complete (state : MealPlanState) (u : StateUpdate) :
  create_report W state = Ok u ->
  exists report, upd_final_report u = Some (PStr report) /\ complete_report report.
Proof.
  unfold create_report. intros H.
  destruct (generate_final_report W state) as [report|e] eqn:E; simpl in H;
    [|discriminate H].
  injection H as <-. exists report. split; [reflexivity|].
  unfold generate_final_report in E. all_cases E. injection E as <-.
  apply ReportFacts.template_complete.
Qed.

Variable config : option RunnableConfig.

(** A run is its first three steps followed by the report stage. *)
Lemma run_split (input : StateInput.MealPlanStateInput) :
  run W input config =
  (state3 <- run_nodes W config [ n_search_recipes; n_parse_recipe; n_find_stores ]
               (initial_state input) ;;
   u <- create_report W state3 ;;
   Ok (merge state3 u)).
Proof.
  unfold run, nodes. cbn [run_nodes].
  destruct (step W config n_search_recipes (initial_state input)) as [s1|e1];
    [|reflexivity].
  cbn [bind].
  destruct (step W config n_parse_recipe s1) as [s2|e2]; [|reflexivity].
  cbn [bind].
  destruct (step W config n_find_stores s2) as [s3|e3]; [|reflexivity].
  cbn [bind]. unfold step. cbn [run_node].
  destruct (create_report W s3); reflexivity.
Qed.

End Report.

(** C1, as stated, fails: for a valid preference record (location
    San Diego) the run in which the store-query reply is not JSON is aborted
    by the exception and yields no final report at all. *)
Lemma run_aborted_without_report :
  StateInput.location Script.san_diego <> EmptyString /\
  invoke Script.bad_store_query Script.san_diego Script.cli_config
    = Raise (mk_exn JSONDecodeError "Expecting value: line 1 column 1 (char 0)") /\
  ~ (exists report,
        invoke Script.bad_store_query Script.san_diego Script.cli_config
          = Ok (PStr report) /\ complete_report report).
Proof.
  split; [discriminate|]. split; [vm_compute; reflexivity|].
  intros [report [H _]]. vm_compute in H. discriminate H.
Qed.

(** C1 (amended): every run that no exception aborts ends with a final
    report that is a non-empty string containing the four section headers,
    whichever stages degraded to their fallback values. The report stage
    does return whenever the first three stages return and leave data that
    can be rendered, and the fallback values of stages 2 and 3 always can:
    degradation never removes a section. *)
Theorem completed_run_has_complete_report (W : World)
    (config : option RunnableConfig) :
  (forall input state,
      run W input config = Ok state ->
      exists report,
        final_report state = PStr report /\
        invoke W input config = Ok (PStr report) /\
        complete_report report) /\
  (forall input state3,
      run_nodes W config [ n_search_recipes; n_parse_recipe; n_find_stores ]
        (initial_state input) = Ok state3 ->
      renderable state3 = true ->
      exists state, run W input config = Ok state) /\
  (forall state location,
      renderable
        (merge (merge state fallback_recipe)
               (stores_update (PList [ fallback_store location ]))) = true).
Proof.
  split; [|split].
  - intros input state Hrun. unfold invoke. rewrite Hrun. cbn [bind].
    rewrite run_split in Hrun.
    destruct (run_nodes W config [ n_search_recipes; n_parse_recipe; n_find_stores ]
                (initial_state input)) as [s3|e3]; cbn [bind] in Hrun;
      [|discriminate Hrun].
    destruct (create_report W s3) as [u|e] eqn:E; cbn [bind] in Hrun;
      [|discriminate Hrun].
    injection Hrun as <-.
    destruct (create_report_complete W s3 u E) as [report [Hu Hc]].
    exists report. unfold merge; simpl. rewrite Hu. simpl. auto.
  - intros input state3 H3 Hr. rewrite run_split, H3. cbn [bind].
    unfold create_report.
    destruct (generate_final_report_total W state3 Hr) as [report ->].
    simpl. eauto.
  - intros state location. reflexivity.
Qed.

(** The run in which stages 1, 2 and 3 all degrade completes, and its
    report is complete. *)
Lemma completed_run_has_complete_report_witness :
  exists state report,
    run Script.degraded Script.san_diego Script.cli_config = Ok state /\
    final_report state = PStr report /\
    invoke Script.degraded Script.san_diego Script.cli_config = Ok (PStr report) /\
    complete_report report.
Proof.
  destruct (completed_run_has_complete_report Script.degraded Script.cli_config)
    as [Hdone _].
  eexists.
  destruct (Hdone Script.san_diego _ eq_refl) as [report [Hf [Hi Hc]]].
  exists report. split; [reflexivity|]. split; [exact Hf|]. split; assumption.
Defined.

End StageFacts.

(* ===================================================================== *)
(** * Further properties of configuration.py                              *)
(* ===================================================================== *)

Module ConfigMore.

(** Shared step: the raw values of the six fields decide the result. *)
Lemma from_runnable_config_ext (env env' : string -> option string)
    (cfg cfg' : option RunnableConfig) :
  (forall name, In name fields -> raw_value env cfg name = raw_value env' cfg' name) ->
  from_runnable_config env cfg = from_runnable_config env' cfg'.
Proof.
  intros H. unfold from_runnable_config, values. f_equal. f_equal.
  apply map_ext_in. intros name Hn. rewrite (H name Hn). reflexivity.
Qed.


Lemma max_store_recommendations_resolved (env : string -> option string)
    (cfg : option RunnableConfig) :
  max_store_recommendations (from_runnable_config env cfg) =
  if cfg_truthy (raw_value env cfg "max_store_recommendations")
  then raw_value env cfg "max_store_recommendations" else CVal (PInt 3).
Proof.
  pose proof (ConfigFacts.resolved_field env cfg "max_store_recommendations"
                (CVal (PInt 3)) eq_refl) as Hr.
  change (Some (max_store_recommendations (from_runnable_config env cfg)) =
          Some (if cfg_truthy (raw_value env cfg "max_store_recommendations")
                then raw_value env cfg "max_store_recommendations"
                else CVal (PInt 3))) in Hr.
  injection Hr as Hr. exact Hr.
Qed.

(** X1: configuration resolution reads nothing but the six variables named
    after the declared fields and the six entries of [configurable] with
    those names: two environments and two run configurations that agree
    there resolve to the same configuration. *)
Theorem resolution_reads_six_names (env env' : string -> option string)
    (cfg cfg' : option RunnableConfig) :
  (forall name, In name fields -> env (upper name) = env' (upper name)) ->
  (forall name, In name fields ->
     lookup name (configurable_of cfg) = lookup name (configurable_of cfg')) ->
  from_runnable_config env cfg = from_runnable_config env' cfg'.
Proof.
  intros He Hc. apply from_runnable_config_ext. intros name Hn.
  unfold raw_value, explicit. rewrite (He name Hn), (Hc name Hn). reflexivity.
Qed.

Lemma resolution_reads_six_names_witness :
  from_runnable_config
    (fun name => lookup name [ ("HOME", "/root"); ("MODEL_NAME", "m") ])
    (Some {| configurable := Some [ ("thread_id", CVal (PInt 7)) ] |})
  = from_runnable_config (fun name => lookup name [ ("MODEL_NAME", "m") ]) None.
Proof.
  apply resolution_reads_six_names.
  - intros name Hn. simpl in Hn.
    repeat (destruct Hn as [<- | Hn]; [reflexivity|]). contradiction.
  - intros name Hn. simpl in Hn.
    repeat (destruct Hn as [<- | Hn]; [reflexivity|]). contradiction.
Defined.

(** X2: a run for which none of the six variables is set and none of the six
    entries is given (no configuration at all, one without [configurable],
    or one with other keys only) gets exactly the built-in defaults. *)
Theorem unconfigured_run_uses_defaults (env : string -> option string)
    (cfg : option RunnableConfig) :
  (forall name, In name fields -> env (upper name) = None) ->
  (forall name, In name fields -> lookup name (configurable_of cfg) = None) ->
  from_runnable_config env cfg = defaults.
Proof.
  intros He Hc.
  rewrite (from_runnable_config_ext env (fun _ => None) cfg None); [reflexivity|].
  intros name Hn. unfold raw_value, explicit.
  rewrite (He name Hn), (Hc name Hn). reflexivity.
Qed.

Lemma unconfigured_run_uses_defaults_witness :
  from_runnable_config (fun name => lookup name [ ("HOME", "/root") ])
    (Some {| configurable := None |}) = defaults.
Proof.
  apply unconfigured_run_uses_defaults.
  - intros name Hn. simpl in Hn.
    repeat (destruct Hn as [<- | Hn]; [reflexivity|]). contradiction.
  - intros name Hn. reflexivity.
Defined.



End ConfigMore.

(* ===================================================================== *)
(** * Further properties of the stages                                    *)
(* ===================================================================== *)

Module StageMore.

Import StageFacts.

Section Stores.

Variable W : World.
Variable config : option RunnableConfig.

(** What a returning [try] block of stage 3 went through. *)
Lemma find_stores_try_inv (c : Configuration) (llm : ChatModel) (sc : string)
    (u : StateUpdate) :
  find_stores_try W c llm sc = Ok u ->
  exists l kept,
    forM_ (check_store W) l = Ok tt /\
    py_slice_to l (max_store_recommendations c) = Ok kept /\
    u = stores_update (PList kept).
Proof.
  unfold find_stores_try. intros H.
  destruct (llm_invoke W llm (store_prompt sc)
              "Extract and format the store information as JSON:") as [content|e];
    cbn [bind] in H; [|discriminate H].
  destruct (json_loads W content) as [store_data|e]; cbn [bind] in H;
    [|discriminate H].
  match type of H with
  | bind ?x _ = _ => destruct x as [invalid|e]; cbn [bind] in H; [|discriminate H]
  end.
  destruct invalid; [discriminate H|].
  destruct (py_getitem store_data "stores") as [stores|e]; cbn [bind] in H;
    [|discriminate H].
  destruct stores as [| | | | |l|]; try discriminate H.
  destruct (forM_ (check_store W) l) as [[]|e] eqn:Ec; cbn [bind] in H;
    [|discriminate H].
  destruct (py_slice_to l (max_store_recommendations c)) as [kept|e] eqn:Es;
    cbn [bind] in H; [|discriminate H].
  injection H as <-. exists l, kept. auto.
Qed.

(** A validation loop that ran to its end saw only complete stores. *)
Lemma check_all_inv (l : list pyval) :
  forM_ (check_store W) l = Ok tt ->
  Forall (fun store => keys_present store_required_keys store = Ok true) l.
Proof.
  induction l as [|s l IH]; intros H; [constructor|].
  simpl in H. unfold check_store at 1 in H.
  destruct (keys_present store_required_keys s) as [[|]|e] eqn:Ek;
    simpl in H; try discriminate H.
  constructor; [exact Ek|exact (IH H)].
Qed.

(** A slice [l[:n]] that is defined is a prefix of [l]. *)
Lemma py_slice_to_prefix (l kept : list pyval) (n : cfgval) :
  py_slice_to l n = Ok kept -> exists k, kept = firstn k l.
Proof.
  unfold py_slice_to. intros H.
  destruct n as [v|a]; [|discriminate H].
  destruct v; try discriminate H.
  - injection H as <-. exists (length l). rewrite firstn_all. reflexivity.
  - injection H as <-. eauto.
  - destruct (0 <=? z)%Z; injection H as <-; eauto.
Qed.

Lemma Forall_firstn {A : Type} (P : A -> Prop) (k : nat) (l : list A) :
  Forall P l -> Forall P (firstn k l).
Proof.
  revert k. induction l as [|x l IH]; intros k H; destruct k; simpl;
    try constructor.
  - inversion H; assumption.
  - apply IH. inversion H; assumption.
Qed.

(** The two ways stage 3 returns. *)
Lemma find_stores_returns (state : MealPlanState) (u : StateUpdate) :
  find_stores W state config = Ok u ->
  u = stores_update (PList [ fallback_store (location state) ]) \/
  exists l kept,
    forM_ (check_store W) l = Ok tt /\
    py_slice_to l (max_store_recommendations
                     (from_runnable_config (environ W) config)) = Ok kept /\
    u = stores_update (PList kept).
Proof.
  intros H. unfold find_stores in H.
  destruct (find_stores_query W state config) as [[[c llm] sc]|e] eqn:Eq;
    cbn [bind] in H; [|discriminate H].
  rewrite (find_stores_query_configuration W config state c llm sc Eq) in *.
  unfold try_except in H.
  destruct (find_stores_try W _ llm sc) as [u'|e] eqn:Et.
  - injection H as <-. right. exact (find_stores_try_inv _ _ _ _ Et).
  - destruct (existsb _ _); [|discriminate H]. injection H as <-. left. reflexivity.
Qed.

End Stores.

(** X5: whenever stage 3 returns, what it recommends is a list, and every
    element of that list passes the three-key test: the list is either the
    single fallback store or a prefix of a list the validation loop accepted
    in full. *)
Theorem recommended_stores_have_keys (W : World) (config : option RunnableConfig)
    (state : MealPlanState) (u : StateUpdate) :
  find_stores W state config = Ok u ->
  exists l,
    upd_store_recommendations u = Some (PList l) /\
    Forall (fun store => keys_present store_required_keys store = Ok true) l.
Proof.
  intros H. destruct (find_stores_returns W config state u H)
    as [-> | [l [kept [Hc [Hs ->]]]]].
  - eexists. split; [reflexivity|]. repeat constructor.
  - exists kept. split; [reflexivity|].
    destruct (py_slice_to_prefix l kept _ Hs) as [k ->].
    apply Forall_firstn, (check_all_inv W), Hc.
Qed.

Lemma recommended_stores_have_keys_witness :
  find_stores Script.healthy Script.after_recipe Script.cli_config
    = Ok (stores_update
            (PList [ Script.store "A"; Script.store "B"; Script.store "C" ])) /\
  exists l,
    upd_store_recommendations
      (stores_update
         (PList [ Script.store "A"; Script.store "B"; Script.store "C" ]))
      = Some (PList l) /\
    Forall (fun store => keys_present store_required_keys store = Ok true) l.
Proof.
  assert (find_stores Script.healthy Script.after_recipe Script.cli_config
          = Ok (stores_update
                  (PList [ Script.store "A"; Script.store "B"; Script.store "C" ])))
    as H by (vm_compute; reflexivity).
  split; [exact H|].
  exact (recommended_stores_have_keys Script.healthy Script.cli_config
           Script.after_recipe _ H).
Defined.

(** X6: when the resolved maximum is a positive integer, stage 3 never
    returns more stores than that, on its success path and on its fallback
    path alike. *)
Theorem store_count_bounded (W : World) (config : option RunnableConfig)
    (state : MealPlanState) (u : StateUpdate) (p : positive) :
  max_store_recommendations (from_runnable_config (environ W) config)
    = CVal (PInt (Z.pos p)) ->
  find_stores W state config = Ok u ->
  exists l,
    upd_store_recommendations u = Some (PList l) /\
    length l <= Pos.to_nat p.
Proof.
  intros Hmax H. destruct (find_stores_returns W config state u H)
    as [-> | [l [kept [_ [Hs ->]]]]].
  - eexists. split; [reflexivity|]. simpl. lia.
  - exists kept. split; [reflexivity|].
    rewrite Hmax in Hs. simpl in Hs. injection Hs as <-.
    apply firstn_le_length.
Qed.

Lemma store_count_bounded_witness :
  max_store_recommendations
    (from_runnable_config (environ Script.bad_store_reply) Script.cli_config)
    = CVal (PInt 3) /\
  find_stores Script.bad_store_reply Script.after_recipe Script.cli_config
    = Ok (stores_update (PList [ fallback_store "San Diego" ])) /\
  exists l,
    upd_store_recommendations
      (stores_update (PList [ fallback_store "San Diego" ])) = Some (PList l) /\
    length l <= 3.
Proof.
  assert (find_stores Script.bad_store_reply Script.after_recipe Script.cli_config
          = Ok (stores_update (PList [ fallback_store "San Diego" ])))
    as H by (vm_compute; reflexivity).
  split; [reflexivity|]. split; [exact H|].
  exact (store_count_bounded Script.bad_store_reply Script.cli_config
           Script.after_recipe _ 3%positive eq_refl H).
Defined.

(** X4: a maximum taken from the environment is a text, not a number: with
    MAX_STORE_RECOMMENDATIONS set to a non-empty value, a store list that
    passes validation makes stage 3 raise a [TypeError] at the slice, which
    its handler does not catch. *)
Theorem environment_maximum_breaks_store_stage (W : World)
    (config : option RunnableConfig) (state : MealPlanState) (llm : ChatModel)
    (sc content : string) (d : list (string * pyval)) (l : list pyval)
    (s : string) :
  environ W "MAX_STORE_RECOMMENDATIONS" = Some s ->
  s <> EmptyString ->
  find_stores_query W state config
    = Ok (from_runnable_config (environ W) config, llm, sc) ->
  llm_invoke W llm (store_prompt sc)
    "Extract and format the store information as JSON:" = Ok content ->
  json_loads W content = Ok (PDict d) ->
  lookup "stores" d = Some (PList l) ->
  Forall (fun store => keys_present store_required_keys store = Ok true) l ->
  find_stores W state config =
  raise TypeError
    "slice indices must be integers or None or have an __index__ method".
Proof.
  intros He Hne Hq Hreply Hjson Hl Hvalid.
  rewrite (find_stores_on_list W config state llm sc content d l Hq Hreply Hjson Hl).
  rewrite (check_all_complete W l Hvalid). cbn [bind].
  rewrite ConfigMore.max_store_recommendations_resolved.
  unfold raw_value. change (upper "max_store_recommendations")
    with "MAX_STORE_RECOMMENDATIONS".
  rewrite He. simpl.
  destruct (s =? EmptyString) eqn:E; [|reflexivity].
  apply String.eqb_eq in E. contradiction.
Qed.

Lemma environment_maximum_breaks_store_stage_witness :
  find_stores Cases.env_max_two Script.after_recipe Script.cli_config =
  raise TypeError
    "slice indices must be integers or None or have an __index__ method".
Proof.
  refine (environment_maximum_breaks_store_stage Cases.env_max_two
            Script.cli_config Script.after_recipe _ _ Script.stores_text _
            (map Script.store Script.five_names) "2"
            eq_refl _ eq_refl eq_refl eq_refl eq_refl _).
  - discriminate.
  - repeat constructor.
Defined.

(** A traversal stops at the first element that raises. *)
Lemma mapM_first_failure {A B : Type} (f : A -> result B)
    (before after : list A) (x : A) (e : exn) :
  Forall (fun a => exists b, f a = Ok b) before ->
  f x = Raise e ->
  mapM f (before ++ x :: after)%list = Raise e.
Proof.
  intros Hb Hx. induction Hb as [|a before [b Ha] _ IH]; simpl.
  - rewrite Hx. reflexivity.
  - rewrite Ha. simpl. rewrite IH. reflexivity.
Qed.

Section Ingredients.

Variable W : World.
Variable config : option RunnableConfig.

(** The name list stops at the first ingredient whose name cannot be read. *)
Lemma ingredient_names_first_failure (before after : list pyval) (x : pyval)
    (e : exn) :
  Forall (fun i => exists name, py_getitem i "name" = Ok name) before ->
  py_getitem x "name" = Raise e ->
  ingredient_names W (PList (before ++ x :: after)%list) = Raise e.
Proof.
  intros Hb Hx. unfold ingredient_names. cbn [py_iter bind].
  apply mapM_first_failure.
  - apply Forall_forall. intros i Hi. rewrite Forall_forall in Hb.
    destruct (Hb i Hi) as [name ->]. simpl. eauto.
  - rewrite Hx. reflexivity.
Qed.

End Ingredients.

(** X7: stage 3 reads the name of every ingredient with a subscript, before
    its [try] block: an ingredient dictionary without [name], which stage 2
    lets through and the shopping-list formatter would print, makes stage 3
    raise a [KeyError] that nothing catches. *)
Theorem nameless_ingredient_aborts_store_stage (W : World)
    (config : option RunnableConfig) (state : MealPlanState)
    (before after : list pyval) (d : list (string * pyval)) :
  ingredients state = PList (before ++ PDict d :: after)%list ->
  Forall (fun i => exists name, py_getitem i "name" = Ok name) before ->
  lookup "name" d = None ->
  find_stores W state config = raise KeyError "'name'" /\
  exists line, ingredient_line W (PDict d) = Ok line.
Proof.
  intros Hi Hb Hd. split.
  - unfold find_stores, find_stores_query. rewrite Hi.
    rewrite (ingredient_names_first_failure W before after (PDict d)
               (mk_exn KeyError "'name'") Hb).
    + reflexivity.
    + simpl. rewrite Hd. reflexivity.
  - eexists. reflexivity.
Qed.

Lemma nameless_ingredient_aborts_store_stage_witness :
  find_stores Script.healthy Cases.nameless_ingredient Script.cli_config
    = raise KeyError "'name'" /\
  exists line,
    ingredient_line Script.healthy
      (PDict [ ("quantity", PStr "1"); ("unit", PStr "pinch") ]) = Ok line.
Proof.
  refine (nameless_ingredient_aborts_store_stage Script.healthy Script.cli_config
            Cases.nameless_ingredient
            [ PDict [ ("quantity", PStr "2"); ("name", PStr "rice") ] ] []
            [ ("quantity", PStr "1"); ("unit", PStr "pinch") ]
            eq_refl _ eq_refl).
  constructor; [|constructor]. eexists. reflexivity.
Defined.

Section Search.

Variable W : World.
Variable config : option RunnableConfig.

(** What a returning [try] block of stage 1 went through. *)
Lemma search_recipes_try_inv (state : MealPlanState) (u : StateUpdate) :
  search_recipes_try W state config = Ok u ->
  exists batch source,
    truthy batch = true /\
    format_sources W batch = Ok source /\
    upd_web_research_results u = Some [ batch ] /\
    upd_sources_gathered u = Some [ source ].
Proof.
  unfold search_recipes_try. intros H.
  destruct (ChatOpenAI W _ 0) as [llm|e]; cbn [bind] in H; [|discriminate H].
  destruct (llm_invoke W llm _ _) as [content|e]; cbn [bind] in H;
    [|discriminate H].
  destruct (json_loads W content) as [query|e]; cbn [bind] in H;
    [|discriminate H].
  match type of H with
  | bind ?x _ = _ => destruct x as [invalid|e]; cbn [bind] in H; [|discriminate H]
  end.
  destruct invalid; [discriminate H|].
  destruct (py_getitem query "query") as [q|e]; cbn [bind] in H;
    [|discriminate H].
  destruct (web_search W _ q) as [results|e]; cbn [bind] in H;
    [|discriminate H].
  destruct (truthy results) eqn:Et; cbn [negb] in H; [|discriminate H].
  destruct (format_sources W results) as [source|e] eqn:Es; cbn [bind] in H;
    [|discriminate H].
  injection H as <-. exists results, source. auto.
Qed.

Lemma py_last_snoc (l : list pyval) (x : pyval) :
  py_last (l ++ [ x ])%list = Ok x.
Proof. unfold py_last. rewrite rev_unit. reflexivity. Qed.

End Search.

(** X8: the batch stage 1 appends is never empty in the Python sense: on the
    success path the search result was tested to be true before it was
    returned, and the synthetic failure batch is a non-empty dictionary. *)
Theorem appended_batch_is_never_empty (W : World) (config : option RunnableConfig)
    (state : MealPlanState) (u : StateUpdate) :
  search_recipes W state config = Ok u ->
  exists batch source,
    upd_web_research_results u = Some [ batch ] /\
    upd_sources_gathered u = Some [ source ] /\
    truthy batch = true.
Proof.
  rewrite search_recipes_outcome. intros H.
  destruct (search_recipes_try W state config) as [u'|e] eqn:E.
  - injection H as <-.
    destruct (search_recipes_try_inv W config state u' E)
      as [batch [source [Ht [_ [Hb Hs]]]]].
    exists batch, source. auto.
  - injection H as <-. eexists. eexists.
    split; [reflexivity|]. split; reflexivity.
Qed.

Lemma appended_batch_is_never_empty_witness :
  search_recipes Script.healthy (initial_state Script.san_diego) Script.cli_config
    = Ok {| upd_recipe_name := None;
            upd_ingredients := None;
            upd_instructions := None;
            upd_store_recommendations := None;
            upd_web_research_results := Some [ Script.batch ];
            upd_sources_gathered :=
              Some [ PStr "* Thai curry : https://example.org/curry" ];
            upd_final_report := None |} /\
  exists batch source,
    Some [ Script.batch ] = Some [ batch ] /\
    Some [ PStr "* Thai curry : https://example.org/curry" ] = Some [ source ] /\
    truthy batch = true.
Proof.
  assert (search_recipes Script.healthy (initial_state Script.san_diego)
            Script.cli_config
          = Ok {| upd_recipe_name := None;
                  upd_ingredients := None;
                  upd_instructions := None;
                  upd_store_recommendations := None;
                  upd_web_research_results := Some [ Script.batch ];
                  upd_sources_gathered :=
                    Some [ PStr "* Thai curry : https://example.org/curry" ];
                  upd_final_report := None |})
    as H by (vm_compute; reflexivity).
  split; [exact H|].
  exact (appended_batch_is_never_empty Script.healthy Script.cli_config
           (initial_state Script.san_diego) _ H).
Defined.

(** X9: after a failed search, stage 2 still asks the model, and the search
    results its prompt shows are the single synthetic entry, which carries
    the message of the failure: nothing of stage 2 fails before that call
    except the construction of the model itself. *)
Theorem failed_search_reaches_recipe_prompt (W : World)
    (config : option RunnableConfig) (state : MealPlanState) (e : exn) :
  parse_recipe W (merge state (failed_search e)) config =
  (llm <- ChatOpenAI W (model_name (from_runnable_config (environ W) config)) 0 ;;
   content <- llm_invoke W llm
                (parse_prompt
                   ("Title: Error in search" ++ nl ++
                    "Content: Failed to search for recipes: " ++ exn_str e ++ nl ++
                    "URL: "))
                "Extract and format the recipe information as JSON:" ;;
   try_except (parse_recipe_try W content) [ JSONDecodeError; ValueError ]
     (fun _ => Ok fallback_recipe)).
Proof.
  unfold parse_recipe.
  destruct (ChatOpenAI W _ 0) as [llm|e']; cbn [bind]; [|reflexivity].
  change (web_research_results (merge state (failed_search e)))
    with (web_research_results state ++
          [ PDict [ ("results",
              PList [ PDict [ ("title", PStr "Error in search");
                              ("content",
                               PStr ("Failed to search for recipes: " ++ exn_str e));
                              ("url", PStr EmptyString) ] ]) ] ])%list.
  rewrite py_last_snoc. reflexivity.
Qed.

(** X10: stage 2 reads the most recent batch only, whatever was gathered
    before it; on a state without any batch it raises an [IndexError] as
    soon as the model has been constructed, before any model call. *)
Theorem parse_recipe_reads_last_batch (W : World) (config : option RunnableConfig)
    (state state' : MealPlanState) :
  (forall earlier batch,
      web_research_results state = (earlier ++ [ batch ])%list ->
      web_research_results state' = [ batch ] ->
      parse_recipe W state config = parse_recipe W state' config) /\
  (forall llm,
      web_research_results state = [] ->
      ChatOpenAI W (model_name (from_runnable_config (environ W) config)) 0 = Ok llm ->
      parse_recipe W state config = raise IndexError "list index out of range").
Proof.
  split.
  - intros earlier batch Hs Hs'. unfold parse_recipe.
    rewrite Hs, Hs', py_last_snoc. reflexivity.
  - intros llm Hs Hllm. unfold parse_recipe. rewrite Hllm, Hs. reflexivity.
Qed.

Lemma parse_recipe_reads_last_batch_witness :
  parse_recipe Script.healthy
    (merge Script.after_search
       {| upd_recipe_name := None;
          upd_ingredients := None;
          upd_instructions := None;
          upd_store_recommendations := None;
          upd_web_research_results := Some [ Script.batch ];
          upd_sources_gathered := None;
          upd_final_report := None |})
    Script.cli_config
  = parse_recipe Script.healthy Script.after_search Script.cli_config /\
  parse_recipe Script.healthy (initial_state Script.san_diego) Script.cli_config
  = raise IndexError "list index out of range".
Proof.
  split.
  - exact (proj1 (parse_recipe_reads_last_batch Script.healthy Script.cli_config
                    (merge Script.after_search
                       {| upd_recipe_name := None;
                          upd_ingredients := None;
                          upd_instructions := None;
                          upd_store_recommendations := None;
                          upd_web_research_results := Some [ Script.batch ];
                          upd_sources_gathered := None;
                          upd_final_report := None |})
                    Script.after_search)
             [ Script.batch ] Script.batch eq_refl eq_refl).
  - exact (proj2 (parse_recipe_reads_last_batch Script.healthy Script.cli_config
                    (initial_state Script.san_diego) Script.after_search)
             _ eq_refl eq_refl).
Defined.



(** X22: only a batch without a [results] entry is printed as it is. When
    the most recent batch is a dictionary whose [results] entry is a scalar
    (a JSON null or number, say), stage 2 raises a [TypeError] while
    formatting the batch, before its model call and outside its [try]
    block. *)
Theorem scalar_results_abort_recipe_stage (W : World)
    (config : option RunnableConfig) (state : MealPlanState)
    (earlier : list pyval) (d : list (string * pyval)) (r : pyval)
    (llm : ChatModel) :
  web_research_results state = (earlier ++ [ PDict d ])%list ->
  lookup "results" d = Some r ->
  container r = false ->
  ChatOpenAI W (model_name (from_runnable_config (environ W) config)) 0 = Ok llm ->
  parse_recipe W state config =
  raise TypeError ("'" ++ type_name r ++ "' object is not iterable").
Proof.
  intros Hs Hd Hr Hllm. unfold parse_recipe. rewrite Hllm. cbn [bind].
  rewrite Hs, py_last_snoc. cbn [bind].
  unfold search_content_of. cbn [is_dict py_contains bind].
  unfold has_key. rewrite Hd. cbn [bind py_getitem]. rewrite Hd. cbn [bind].
  destruct r; try discriminate Hr; reflexivity.
Qed.

Lemma scalar_results_abort_recipe_stage_witness :
  parse_recipe Script.healthy
    (merge (initial_state Script.san_diego)
       {| upd_recipe_name := None;
          upd_ingredients := None;
          upd_instructions := None;
          upd_store_recommendations := None;
          upd_web_research_results := Some [ PDict [ ("results", PNone) ] ];
          upd_sources_gathered := None;
          upd_final_report := None |})
    Script.cli_config
  = raise TypeError "'NoneType' object is not iterable".
Proof.
  exact (scalar_results_abort_recipe_stage Script.healthy Script.cli_config
           (merge (initial_state Script.san_diego)
              {| upd_recipe_name := None;
                 upd_ingredients := None;
                 upd_instructions := None;
                 upd_store_recommendations := None;
                 upd_web_research_results := Some [ PDict [ ("results", PNone) ] ];
                 upd_sources_gathered := None;
                 upd_final_report := None |})
           [] [ ("results", PNone) ] PNone _ eq_refl eq_refl eq_refl eq_refl).
Defined.

Section Runs.

Variable W : World.
Variable config : option RunnableConfig.

(** The first three steps of a run, one by one. *)
Lemma first_three_steps (input : StateInput.MealPlanStateInput)
    (s3 : MealPlanState) :
  run_nodes W config [ n_search_recipes; n_parse_recipe; n_find_stores ]
    (initial_state input) = Ok s3 ->
  exists s1 s2,
    step W config n_search_recipes (initial_state input) = Ok s1 /\
    step W config n_parse_recipe s1 = Ok s2 /\
    step W config n_find_stores s2 = Ok s3.
Proof.
  cbn [run_nodes]. intros H.
  destruct (step W config n_search_recipes (initial_state input)) as [s1|e];
    cbn [bind] in H; [|discriminate H].
  destruct (step W config n_parse_recipe s1) as [s2|e] eqn:E2;
    cbn [bind] in H; [|discriminate H].
  destruct (step W config n_find_stores s2) as [s3'|e] eqn:E3;
    cbn [bind] in H; [|discriminate H].
  injection H as <-. exists s1, s2. auto.
Qed.

(** A completed run, cut before its report stage. *)
Lemma run_inv (input : StateInput.MealPlanStateInput) (state : MealPlanState) :
  run W input config = Ok state ->
  exists s3 report,
    run_nodes W config [ n_search_recipes; n_parse_recipe; n_find_stores ]
      (initial_state input) = Ok s3 /\
    generate_final_report W s3 = Ok report /\
    state = merge s3 {| upd_recipe_name := None;
                        upd_ingredients := None;
                        upd_instructions := None;
                        upd_store_recommendations := None;
                        upd_web_research_results := None;
                        upd_sources_gathered := None;
                        upd_final_report := Some (PStr report) |}.
Proof.
  rewrite run_split. intros H.
  destruct (run_nodes W config _ (initial_state input)) as [s3|e] eqn:E3;
    cbn [bind] in H; [|discriminate H].
  unfold create_report in H.
  destruct (generate_final_report W s3) as [report|e] eqn:Eg; cbn [bind] in H;
    [|discriminate H].
  injection H as <-. exists s3, report.
  split; [reflexivity|]. split; [exact Eg|reflexivity].
Qed.

End Runs.

(** X12: a run that completes ends with exactly one search batch and exactly
    one source entry, whichever way its stages went. *)
Theorem completed_run_has_one_batch (W : World) (config : option RunnableConfig)
    (input : StateInput.MealPlanStateInput) (state : MealPlanState) :
  run W input config = Ok state ->
  length (web_research_results state) = 1 /\
  length (sources_gathered state) = 1.
Proof.
  intros H. destruct (run_inv W config input state H) as [s3 [report [H3 [_ ->]]]].
  destruct (first_three_steps W config input s3 H3) as [s1 [s2 [E1 [E2 E3]]]].
  destruct (later_step_keeps W config n_find_stores s2 s3 ltac:(discriminate) E3)
    as [Hw3 Hs3].
  destruct (later_step_keeps W config n_parse_recipe s1 s2 ltac:(discriminate) E2)
    as [Hw2 Hs2].
  unfold step in E1. cbn [run_node] in E1.
  destruct (search_recipes_one_batch W config (initial_state input))
    as [u [b [s [Hu [Hb Hs]]]]].
  rewrite Hu in E1. cbn [bind] in E1. injection E1 as <-.
  match goal with
  | |- length (web_research_results (merge s3 ?u4)) = 1 /\ _ =>
      destruct (merge_keeps s3 u4 (conj eq_refl eq_refl)) as [-> ->]
  end.
  rewrite Hw3, Hw2, Hs3, Hs2. unfold merge. simpl. rewrite Hb, Hs.
  split; reflexivity.
Qed.

Lemma completed_run_has_one_batch_witness :
  exists state,
    run Script.degraded Script.san_diego Script.cli_config = Ok state /\
    length (web_research_results state) = 1 /\
    length (sources_gathered state) = 1.
Proof.
  eexists. split; [vm_compute; reflexivity|].
  apply (completed_run_has_one_batch Script.degraded Script.cli_config
           Script.san_diego).
  vm_compute. reflexivity.
Defined.

(** X13: the report a completed run stores is the rendering of the very
    state it is stored in: recipe name, stores, ingredients and instructions
    of the final state are the ones the report shows. *)
Theorem report_rendered_from_final_state (W : World)
    (config : option RunnableConfig) (input : StateInput.MealPlanStateInput)
    (state : MealPlanState) :
  run W input config = Ok state ->
  exists report,
    final_report state = PStr report /\
    generate_final_report W state = Ok report.
Proof.
  intros H. destruct (run_inv W config input state H) as [s3 [report [_ [Hr ->]]]].
  exists report. split; [reflexivity|]. exact Hr.
Qed.

Lemma report_rendered_from_final_state_witness :
  exists state report,
    run Script.healthy Script.san_diego Script.cli_config = Ok state /\
    final_report state = PStr report /\
    generate_final_report Script.healthy state = Ok report.
Proof.
  eexists.
  destruct (report_rendered_from_final_state Script.healthy Script.cli_config
              Script.san_diego _ eq_refl) as [report [Hf Hg]].
  exists report. split; [reflexivity|]. split; assumption.
Defined.

End StageMore.

(* ===================================================================== *)
(** * Further properties of meal_utils.py                                 *)
(* ===================================================================== *)

Module MealUtilsMore.

Section Lines.

Variable W : World.

(** A line of the shopping list as text. *)
Lemma strip_dash (text : string) :
  exists rest,
    strip ("- " ++ text) = String "-" rest /\
    forall front c, String "-" rest = front ++ String c EmptyString ->
                    is_space c = false.
Proof.
  destruct (PyFacts.rstrip_head "-" (String " " text) eq_refl) as [rest Hr].
  exists rest.
  assert (strip ("- " ++ text) = String "-" rest) as Hs by exact Hr.
  split; [exact Hs|]. intros front c H. rewrite <- Hs in H.
  exact (proj2 (PyFacts.strip_trimmed ("- " ++ text)) front c H).
Qed.

Lemma ingredient_line_shape (d : list (string * pyval)) :
  exists rest,
    ingredient_line W (PDict d) = Ok (String "-" rest) /\
    forall front c, String "-" rest = front ++ String c EmptyString ->
                    is_space c = false.
Proof.
  destruct (strip_dash (py_str W (dict_get d "quantity" (PStr EmptyString)) ++ " "
                        ++ py_str W (dict_get d "unit" (PStr EmptyString)) ++ " "
                        ++ py_str W (dict_get d "name" (PStr EmptyString))))
    as [rest [Hs Ht]].
  exists rest. split; [|exact Ht].
  rewrite MealUtilsFacts.ingredient_line_dict. f_equal. exact Hs.
Qed.

Lemma numbered_length (i : nat) (steps : list pyval) :
  length (numbered W i steps) = length steps.
Proof.
  revert i. induction steps as [|s steps IH]; intros i; simpl; [reflexivity|].
  rewrite IH. reflexivity.
Qed.

Lemma numbered_nth (i k : nat) (steps : list pyval) (step : pyval) :
  nth_error steps k = Some step ->
  nth_error (numbered W i steps) k
    = Some (str_of_nat (i + k + 1) ++ ". " ++ py_str W step).
Proof.
  revert i k. induction steps as [|s steps IH]; intros i k H.
  - destruct k; discriminate H.
  - destruct k as [|k]; simpl in *.
    + injection H as ->. rewrite Nat.add_0_r. reflexivity.
    + rewrite (IH (S i) k H). do 3 f_equal. lia.
Qed.

(** The lines of a list of dictionaries. *)
Lemma lines_of_dicts (items : list (list (string * pyval))) :
  exists lines,
    mapM (ingredient_line W) (map PDict items) = Ok lines /\
    length lines = length items /\
    Forall (fun line =>
              exists rest,
                line = String "-" rest /\
                forall front c, line = front ++ String c EmptyString ->
                                is_space c = false) lines.
Proof.
  induction items as [|d items [lines [Hm [Hl Hs]]]].
  - exists []. split; [reflexivity|]. split; [reflexivity|constructor].
  - destruct (ingredient_line_shape d) as [rest [Hd Ht]].
    exists (String "-" rest :: lines). cbn [map mapM].
    rewrite Hd. cbn [bind]. rewrite Hm. cbn [bind].
    split; [reflexivity|]. split; [simpl; rewrite Hl; reflexivity|].
    constructor; [|exact Hs]. exists rest. split; [reflexivity|exact Ht].
Qed.

End Lines.

(** X14: for ingredients that are dictionaries the shopping list is, in the
    order of the ingredients, the lines of the ingredients joined by
    newlines, the line of an ingredient being the trimmed text of a dash and
    its three components; whatever the components hold, missing or blank
    ones included, that line starts with a dash and does not end in
    whitespace. *)
Theorem shopping_list_line_shape (W : World)
    (items : list (list (string * pyval))) :
  format_ingredients_list W (PList (map PDict items)) =
  Ok (join nl
        (map (fun d =>
                strip ("- " ++ py_str W (dict_get d "quantity" (PStr EmptyString))
                         ++ " " ++ py_str W (dict_get d "unit" (PStr EmptyString))
                         ++ " " ++ py_str W (dict_get d "name" (PStr EmptyString))))
             items)) /\
  Forall (fun line =>
            exists rest,
              line = String "-" rest /\
              forall front c, line = front ++ String c EmptyString ->
                              is_space c = false)
    (map (fun d =>
            strip ("- " ++ py_str W (dict_get d "quantity" (PStr EmptyString))
                     ++ " " ++ py_str W (dict_get d "unit" (PStr EmptyString))
                     ++ " " ++ py_str W (dict_get d "name" (PStr EmptyString))))
         items).
Proof.
  split.
  - unfold format_ingredients_list. cbn [py_iter bind].
    rewrite (MealUtilsFacts.mapM_ok (ingredient_line W)
               (fun v => match v with
                         | PDict d =>
                             strip ("- " ++ py_str W (dict_get d "quantity" (PStr EmptyString))
                                      ++ " " ++ py_str W (dict_get d "unit" (PStr EmptyString))
                                      ++ " " ++ py_str W (dict_get d "name" (PStr EmptyString)))
                         | _ => EmptyString
                         end)).
    + cbn [bind]. rewrite map_map. reflexivity.
    + intros x Hx. apply in_map_iff in Hx. destruct Hx as [d [<- _]].
      apply MealUtilsFacts.ingredient_line_dict.
  - apply Forall_forall. intros line Hl. apply in_map_iff in Hl.
    destruct Hl as [d [<- _]].
    destruct (strip_dash
                (py_str W (dict_get d "quantity" (PStr EmptyString))
                   ++ " " ++ py_str W (dict_get d "unit" (PStr EmptyString))
                   ++ " " ++ py_str W (dict_get d "name" (PStr EmptyString))))
      as [rest [Hs Ht]].
    exists rest. split; [exact Hs|]. rewrite Hs. exact Ht.
Qed.

(** X15: the shopping-list formatter reads its items with [get]: the first
    item that is not a dictionary makes it raise an [AttributeError], so it
    fails as a whole rather than skipping the item. *)
Theorem non_dict_ingredient_raises (W : World) (before after : list pyval)
    (x : pyval) :
  forallb is_dict before = true ->
  is_dict x = false ->
  format_ingredients_list W (PList (before ++ x :: after)%list) =
  raise AttributeError ("'" ++ type_name x ++ "' object has no attribute 'get'").
Proof.
  intros Hb Hx. unfold format_ingredients_list. cbn [py_iter bind].
  rewrite (StageMore.mapM_first_failure (ingredient_line W) before after x
             (mk_exn AttributeError
                ("'" ++ type_name x ++ "' object has no attribute 'get'"))).
  - reflexivity.
  - apply Forall_forall. intros i Hi. rewrite forallb_forall in Hb.
    specialize (Hb i Hi). destruct i; try discriminate Hb.
    eexists. reflexivity.
  - destruct x; try discriminate Hx; reflexivity.
Qed.

Lemma non_dict_ingredient_raises_witness :
  format_ingredients_list Script.healthy
    (PList [ Script.flour; PStr "salt"; Script.egg ]) =
  raise AttributeError "'str' object has no attribute 'get'".
Proof.
  exact (non_dict_ingredient_raises Script.healthy [ Script.flour ] [ Script.egg ]
           (PStr "salt") eq_refl eq_refl).
Defined.

Section Stores.

Variable W : World.

Lemma append_empty_r (s : string) : s ++ EmptyString = s.
Proof.
  induction s as [|c s IH]; simpl; [reflexivity|]. rewrite IH. reflexivity.
Qed.

Lemma str_items_map (i : nat) (items : list string) :
  str_items i (map PStr items) = Ok items.
Proof.
  revert i. induction items as [|s items IH]; intros i; simpl; [reflexivity|].
  rewrite IH. reflexivity.
Qed.

End Stores.

(** X16: a store is rendered as the line [* name - address]; a second line
    [Recommended for:] with the comma-separated items follows exactly when
    the list of specialty items is not empty. A missing name or address is
    rendered as the empty text. *)
Theorem store_block_second_line (W : World) (d : list (string * pyval))
    (items : list string) :
  dict_get d "specialty_items" (PList []) = PList (map PStr items) ->
  format_store_recommendations W (PList [ PDict d ]) =
  Ok ("* " ++ py_str W (dict_get d "name" (PStr EmptyString)) ++ " - "
           ++ py_str W (dict_get d "address" (PStr EmptyString))
           ++ match items with
              | [] => EmptyString
              | _ => nl ++ "  Recommended for: " ++ join ", " items
              end).
Proof.
  intros Hi. unfold format_store_recommendations. cbn [py_iter bind mapM].
  unfold store_block. cbn [py_get bind]. rewrite Hi.
  destruct items as [|item items].
  - cbn [map truthy]. cbn [bind join String.concat].
    rewrite append_empty_r. reflexivity.
  - cbn [map truthy]. unfold py_join. cbn [py_iter].
    change (PStr item :: map PStr items) with (map PStr (item :: items)).
    rewrite str_items_map. cbn [bind join String.concat].
    f_equal. cbn [append].
    rewrite (ReportFacts.append_assoc
               (py_str W (dict_get d "name" (PStr EmptyString)))).
    cbn [append]. reflexivity.
Qed.

Lemma store_block_second_line_witness :
  format_store_recommendations Script.healthy (PList [ Script.store "A" ]) =
  Ok ("* A - 1 Main St" ++ nl ++ "  Recommended for: rice") /\
  format_store_recommendations Script.healthy
    (PList [ PDict [ ("name", PStr "B"); ("specialty_items", PList []) ] ]) =
  Ok "* B - ".
Proof.
  split.
  - exact (store_block_second_line Script.healthy
             [ ("name", PStr "A"); ("address", PStr "1 Main St");
               ("specialty_items", PList [ PStr "rice" ]) ] [ "rice" ] eq_refl).
  - exact (store_block_second_line Script.healthy
             [ ("name", PStr "B"); ("specialty_items", PList []) ] [] eq_refl).
Defined.

(** X17: when the instructions are a list, the report [generate_final_report]
    returns is the template filled with the recipe name, the formatted
    stores, the formatted shopping list and one line per instruction, in
    order and joined by newlines; the line of the step at position k,
    counted from 0, is k+1, a dot, a space and the step. *)
Theorem instructions_numbered_from_one (W : World) (state : MealPlanState)
    (steps : list pyval) (report : string) :
  instructions state = PList steps ->
  generate_final_report W state = Ok report ->
  exists stores shopping lines,
    format_store_recommendations W (store_recommendations state) = Ok stores /\
    format_ingredients_list W (ingredients state) = Ok shopping /\
    report = FINAL_REPORT_TEMPLATE (py_str W (recipe_name state)) stores shopping
               (join nl lines) /\
    length lines = length steps /\
    forall k step,
      nth_error steps k = Some step ->
      nth_error lines k = Some (str_of_nat (k + 1) ++ ". " ++ py_str W step).
Proof.
  intros Hi H. unfold generate_final_report in H.
  destruct (format_store_recommendations W (store_recommendations state))
    as [stores|e]; cbn [bind] in H; [|discriminate H].
  destruct (format_ingredients_list W (ingredients state)) as [shopping|e];
    cbn [bind] in H; [|discriminate H].
  rewrite Hi in H. cbn [py_iter bind] in H. injection H as <-.
  exists stores, shopping, (numbered W 0 steps).
  split; [reflexivity|]. split; [reflexivity|]. split; [reflexivity|].
  split; [apply numbered_length|].
  intros k step Hk. exact (numbered_nth W 0 k steps step Hk).
Qed.

Lemma instructions_numbered_from_one_witness :
  exists report lines,
    generate_final_report Script.healthy MoreCases.after_stores = Ok report /\
    report = FINAL_REPORT_TEMPLATE "Green Curry"
               ("* A - 1 Main St" ++ nl ++ "  Recommended for: rice" ++ nl ++
                "* B - 1 Main St" ++ nl ++ "  Recommended for: rice" ++ nl ++
                "* C - 1 Main St" ++ nl ++ "  Recommended for: rice")
               "- 2 cups rice" (join nl lines) /\
    length lines = 2 /\
    nth_error lines 0 = Some "1. Boil rice" /\
    nth_error lines 1 = Some "2. Serve".
Proof.
  eexists.
  destruct (instructions_numbered_from_one Script.healthy MoreCases.after_stores
              [ PStr "Boil rice"; PStr "Serve" ] _ eq_refl eq_refl)
    as [stores [shopping [lines [Hs [Hg [Hr [Hl Hn]]]]]]].
  exists lines. split; [reflexivity|].
  injection Hs as <-. injection Hg as <-.
  split; [exact Hr|]. split; [exact Hl|].
  split; [exact (Hn 0 _ eq_refl)|exact (Hn 1 _ eq_refl)].
Defined.

(** X18: the report stage reads every store with [get]. A store that is not
    a dictionary, which the key test of stage 3 accepts when it is a list or
    a text containing the three key names, makes the report stage raise an
    [AttributeError]; no final report is produced. *)
Theorem non_dict_store_breaks_report (W : World) (state : MealPlanState)
    (before after : list pyval) (x : pyval) :
  store_recommendations state = PList (before ++ x :: after)%list ->
  forallb renderable_store before = true ->
  is_dict x = false ->
  generate_final_report W state =
    raise AttributeError ("'" ++ type_name x ++ "' object has no attribute 'get'") /\
  create_report W state =
    raise AttributeError ("'" ++ type_name x ++ "' object has no attribute 'get'").
Proof.
  intros Hs Hb Hx.
  assert (generate_final_report W state =
          raise AttributeError
            ("'" ++ type_name x ++ "' object has no attribute 'get'")) as Hg.
  { unfold generate_final_report, format_store_recommendations.
    rewrite Hs. cbn [py_iter bind].
    rewrite (StageMore.mapM_first_failure (store_block W) before after x
               (mk_exn AttributeError
                  ("'" ++ type_name x ++ "' object has no attribute 'get'"))).
    - reflexivity.
    - apply Forall_forall. intros s Hin. rewrite forallb_forall in Hb.
      exact (StageFacts.store_block_total W s (Hb s Hin)).
    - destruct x; try discriminate Hx; reflexivity. }
  split; [exact Hg|]. unfold create_report. rewrite Hg. reflexivity.
Qed.

Lemma non_dict_store_breaks_report_witness :
  keys_present store_required_keys Cases.key_names_store = Ok true /\
  create_report Script.healthy Cases.odd_store_state =
    raise AttributeError "'list' object has no attribute 'get'".
Proof.
  split; [reflexivity|].
  exact (proj2 (non_dict_store_breaks_report Script.healthy Cases.odd_store_state
                  [ Script.store "A" ] [] Cases.key_names_store
                  eq_refl eq_refl eq_refl)).
Defined.

End MealUtilsMore.

(* ===================================================================== *)
(** * Properties of cli.py                                                *)
(* ===================================================================== *)

Module CliFacts.

Lemma lower_char_idempotent (c : ascii) : lower_char (lower_char c) = lower_char c.
Proof.
  destruct c as [[] [] [] [] [] [] [] []]; vm_compute; reflexivity.
Qed.

(** Lower-casing neither creates nor removes a space. *)
Lemma lower_char_space (c : ascii) :
  Ascii.eqb (lower_char c) " " = Ascii.eqb c " ".
Proof.
  destruct c as [[] [] [] [] [] [] [] []]; vm_compute; reflexivity.
Qed.

Lemma lower_idempotent (s : string) : lower (lower s) = lower s.
Proof.
  induction s as [|c s IH]; simpl; [reflexivity|].
  rewrite lower_char_idempotent, IH. reflexivity.
Qed.

Lemma lower_replace (s : string) :
  lower (replace_char " " "_" s) = replace_char " " "_" (lower s).
Proof.
  induction s as [|c s IH]; simpl; [reflexivity|].
  rewrite IH, lower_char_space. destruct (Ascii.eqb c " "); reflexivity.
Qed.

Lemma replace_idempotent (s : string) :
  replace_char " " "_" (replace_char " " "_" s) = replace_char " " "_" s.
Proof.
  induction s as [|c s IH]; simpl; [reflexivity|].
  rewrite IH. destruct (Ascii.eqb c " ") eqn:E; [reflexivity|].
  rewrite E. reflexivity.
Qed.

(** The part of the file name that comes from the location. *)
Lemma normalised_location (location : string) :
  String.length (replace_char " " "_" (lower location)) = String.length location /\
  forall c, In c (list_ascii_of_string (replace_char " " "_" (lower location))) ->
            c <> " "%char /\ lower_char c = c.
Proof.
  induction location as [|a location [IHl IHc]]; simpl.
  - split; [reflexivity|]. intros c [].
  - split; [rewrite IHl; reflexivity|].
    intros c [<- | Hc]; [|exact (IHc c Hc)].
    destruct (Ascii.eqb (lower_char a) " ") eqn:E.
    + split; [discriminate|reflexivity].
    + split; [apply Ascii.eqb_neq; exact E|apply lower_char_idempotent].
Qed.

(** On ASCII, lower-casing then replacing spaces is [file_char]. *)
Lemma file_char_ascii (c : ascii) :
  is_ascii c = true ->
  (if Ascii.eqb (lower_char c) " " then "_"%char else lower_char c) = file_char c.
Proof.
  destruct c as [[] [] [] [] [] [] [] []]; intros H;
    first [ discriminate H | vm_compute; reflexivity ].
Qed.

Lemma file_char_clean (c : ascii) :
  is_ascii c = true ->
  file_char c <> " "%char /\ is_upper_letter (file_char c) = false.
Proof.
  destruct c as [[] [] [] [] [] [] [] []]; intros H;
    first [ discriminate H | split; [discriminate|vm_compute; reflexivity] ].
Qed.

Lemma normalised_ascii (location : string) :
  ascii_text location = true ->
  replace_char " " "_" (lower location) = map_chars file_char location.
Proof.
  induction location as [|c location IH]; simpl; [reflexivity|].
  intros H. apply andb_true_iff in H. destruct H as [Hc Hl].
  rewrite (file_char_ascii c Hc), (IH Hl). reflexivity.
Qed.

Lemma map_chars_clean (location : string) :
  ascii_text location = true ->
  String.length (map_chars file_char location) = String.length location /\
  forall c, In c (list_ascii_of_string (map_chars file_char location)) ->
            c <> " "%char /\ is_upper_letter c = false.
Proof.
  induction location as [|a location IH]; simpl.
  - intros _. split; [reflexivity|]. intros c [].
  - intros H. apply andb_true_iff in H. destruct H as [Ha Hl].
    destruct (IH Hl) as [IHn IHc].
    split; [rewrite IHn; reflexivity|].
    intros c [<- | Hc]; [exact (file_char_clean a Ha)|exact (IHc c Hc)].
Qed.

Lemma similar_file_char (x y : ascii) :
  similar_char x y -> file_char x = file_char y.
Proof.
  intros [-> | [[Hx ->] | [[Hy ->] | [[-> ->] | [-> ->]]]]];
    try reflexivity.
  - destruct x as [[] [] [] [] [] [] [] []];
      first [ discriminate Hx | vm_compute; reflexivity ].
  - destruct y as [[] [] [] [] [] [] [] []];
      first [ discriminate Hy | vm_compute; reflexivity ].
Qed.

Lemma similar_map_chars (a b : string) :
  similar a b -> map_chars file_char a = map_chars file_char b.
Proof.
  induction 1 as [|x y a b Hc _ IH]; simpl; [reflexivity|].
  rewrite (similar_file_char x y Hc), IH. reflexivity.
Qed.

(** X19: for a location written in ASCII, [save_to_markdown] writes the
    report to the file named [meal_plan_], then the location character by
    character, then [.md], where a space of the location has become an
    underscore, a letter A to Z its lower-case letter, and every other
    character is kept; so that part has the length of the location and
    contains no space and no letter A to Z.  The line printed names the same
    file. *)
Theorem markdown_filename_shape (location : string) :
  ascii_text location = true ->
  let name := "meal_plan_" ++ map_chars file_char location ++ ".md" in
  markdown_filename location = name /\
  (forall (H : Host) (report line : string),
      save_to_markdown H report location = Ok line ->
      write_text H name
        (("*Generated on: " ++ now_stamp H ++ "*" ++ nl ++ nl) ++ report) = Ok tt /\
      line = nl ++ "Meal plan saved to " ++ name) /\
  String.length (map_chars file_char location) = String.length location /\
  forall c, In c (list_ascii_of_string (map_chars file_char location)) ->
            c <> " "%char /\ is_upper_letter c = false.
Proof.
  intros Hl name.
  assert (Hn : markdown_filename location = name).
  { unfold markdown_filename, name.
    rewrite (normalised_ascii location Hl). reflexivity. }
  split; [exact Hn|]. split; [|exact (map_chars_clean location Hl)].
  intros H report line. unfold save_to_markdown. rewrite Hn.
  destruct (write_text H name _) as [[]|e]; cbn [bind]; intros E;
    [injection E as <-; split; reflexivity|discriminate E].
Qed.

Lemma markdown_filename_shape_witness :
  markdown_filename "San Diego, CA 92101" = "meal_plan_san_diego,_ca_92101.md".
Proof.
  exact (proj1 (markdown_filename_shape "San Diego, CA 92101" eq_refl)).
Defined.

(** X20: two locations written in ASCII that differ only in the case of
    letters A to Z, or in having a space where the other has an underscore,
    get the same file name, and [save_to_markdown] does the same with both:
    the same file written with the same content, the same line printed. *)
Theorem same_file_for_case_and_space_variants (a b : string) :
  ascii_text a = true ->
  ascii_text b = true ->
  similar a b ->
  markdown_filename a = markdown_filename b /\
  forall (H : Host) (report : string),
    save_to_markdown H report a = save_to_markdown H report b.
Proof.
  intros Ha Hb Hs.
  assert (Hn : markdown_filename a = markdown_filename b).
  { unfold markdown_filename.
    rewrite (normalised_ascii a Ha), (normalised_ascii b Hb),
            (similar_map_chars a b Hs).
    reflexivity. }
  split; [exact Hn|].
  intros H report. unfold save_to_markdown. rewrite Hn. reflexivity.
Qed.

Lemma same_file_for_case_and_space_variants_witness :
  markdown_filename "San Diego" = markdown_filename "san_DIEGO".
Proof.
  apply same_file_for_case_and_space_variants; [reflexivity|reflexivity|].
  repeat (apply similar_char_step;
          [ first [ left; reflexivity
                  | right; left; split; reflexivity
                  | right; right; left; split; reflexivity
                  | right; right; right; left; split; reflexivity
                  | right; right; right; right; split; reflexivity ] | ]).
  apply similar_empty.
Defined.

(** X21: under an environment that sets none of the six variables, the
    configuration [run_meal_planner] builds resolves to the built-in defaults
    in every field but the model name, and the model name is the one passed
    in when that is a non-empty text and the default one otherwise. *)
Theorem cli_configuration_resolved (env : string -> option string)
    (model : option string) :
  (forall name, In name fields -> env (upper name) = None) ->
  from_runnable_config env (Cli.cli_config model) =
  {| max_web_research_loops := max_web_research_loops defaults;
     model_name :=
       match model with
       | Some (String c m) => CVal (PStr (String c m))
       | _ => model_name defaults
       end;
     search_api := search_api defaults;
     max_store_recommendations := max_store_recommendations defaults;
     include_price_estimates := include_price_estimates defaults;
     max_recipe_alternatives := max_recipe_alternatives defaults |}.
Proof.
  intros He.
  rewrite (ConfigMore.from_runnable_config_ext env (fun _ => None)
             (Cli.cli_config model) (Cli.cli_config model)).
  - destruct model as [[|c m]|]; reflexivity.
  - intros name Hn. unfold raw_value. rewrite (He name Hn). reflexivity.
Qed.

Lemma cli_configuration_resolved_witness :
  from_runnable_config Cases.unrelated_env (Cli.cli_config (Some "gpt-4o")) =
  {| max_web_research_loops := CVal (PInt 3);
     model_name := CVal (PStr "gpt-4o");
     search_api := CEnum TAVILY;
     max_store_recommendations := CVal (PInt 3);
     include_price_estimates := CVal (PBool true);
     max_recipe_alternatives := CVal (PInt 2) |}.
Proof.
  apply (cli_configuration_resolved Cases.unrelated_env (Some "gpt-4o")).
  intros name Hn. simpl in Hn.
  repeat (destruct Hn as [<- | Hn]; [reflexivity|]). contradiction.
Defined.

End CliFacts.

(* ===================================================================== *)
(** * The research lists, the store maximum and the store handler         *)
(* ===================================================================== *)

Module StageLaws.

Import StageFacts.

Section Lists.

Variable W : World.
Variable config : option RunnableConfig.

(** The step of stage 1 appends one batch and one source to the state. *)
Lemma search_step_appends_one (state : MealPlanState) :
  exists state' batch source,
    step W config n_search_recipes state = Ok state' /\
    web_research_results state' = (web_research_results state ++ [ batch ])%list /\
    sources_gathered state' = (sources_gathered state ++ [ source ])%list.
Proof.
  destruct (search_recipes_one_batch W config state) as [u [b [s [Hu [Hb Hs]]]]].
  exists (merge state u), b, s. unfold step. cbn [run_node]. rewrite Hu.
  split; [reflexivity|]. unfold merge; simpl. rewrite Hb, Hs.
  split; reflexivity.
Qed.

(** A completed run holds exactly the batch and the source of stage 1. *)
Lemma run_lists (input : StateInput.MealPlanStateInput) (state : MealPlanState) :
  run W input config = Ok state ->
  exists batch source,
    web_research_results state = [ batch ] /\ sources_gathered state = [ source ].
Proof.
  intros H.
  destruct (StageMore.run_inv W config input state H) as [s3 [report [H3 [_ ->]]]].
  destruct (StageMore.first_three_steps W config input s3 H3)
    as [s1 [s2 [E1 [E2 E3]]]].
  destruct (later_step_keeps W config n_find_stores s2 s3 ltac:(discriminate) E3)
    as [Hw3 Hs3].
  destruct (later_step_keeps W config n_parse_recipe s1 s2 ltac:(discriminate) E2)
    as [Hw2 Hs2].
  destruct (search_step_appends_one (initial_state input))
    as [s1' [b [s [E1' [Hb Hs]]]]].
  rewrite E1 in E1'. injection E1' as <-.
  exists b, s.
  match goal with
  | |- web_research_results (merge s3 ?u4) = _ /\ _ =>
      destruct (merge_keeps s3 u4 (conj eq_refl eq_refl)) as [-> ->]
  end.
  rewrite Hw3, Hw2, Hs3, Hs2, Hb, Hs. split; reflexivity.
Qed.

End Lists.

(** C2: both research lists are append-only across a run. The step of
    stage 1 always returns, and the state it yields holds the earlier
    contents of each list followed by exactly one new entry (each length
    grows by one), on the success path and on the fallback path alike; a
    step of any later stage leaves both lists unchanged; along any sequence
    of steps the earlier contents stay, in place, as a prefix; and a
    completed run, which starts from empty lists, ends with exactly the one
    batch and the one source of stage 1. *)
Theorem research_lists_append_only (W : World) (config : option RunnableConfig) :
  (forall state, exists state' batch source,
      step W config n_search_recipes state = Ok state' /\
      web_research_results state'
        = (web_research_results state ++ [ batch ])%list /\
      sources_gathered state'
        = (sources_gathered state ++ [ source ])%list /\
      length (web_research_results state')
        = length (web_research_results state) + 1 /\
      length (sources_gathered state')
        = length (sources_gathered state) + 1) /\
  (forall n state state',
      n <> n_search_recipes ->
      step W config n state = Ok state' ->
      web_research_results state' = web_research_results state /\
      sources_gathered state' = sources_gathered state) /\
  (forall ns state state',
      run_nodes W config ns state = Ok state' ->
      exists batches sources,
        web_research_results state'
          = (web_research_results state ++ batches)%list /\
        sources_gathered state'
          = (sources_gathered state ++ sources)%list) /\
  (forall input state',
      run W input config = Ok state' ->
      exists batch source,
        web_research_results state' = [ batch ] /\
        sources_gathered state' = [ source ]).
Proof.
  split; [|split; [|split]].
  - intros state.
    destruct (search_step_appends_one W config state) as [s' [b [s [E [Hb Hs]]]]].
    exists s', b, s. rewrite Hb, Hs, !length_app. simpl. auto.
  - apply later_step_keeps.
  - apply run_nodes_appends.
  - apply run_lists.
Qed.

(** In the fully degraded run and in the healthy run: the step of stage 1
    turns the empty lists into lists of one entry, the step of the store
    stage changes neither list, and the run ends with one batch and one
    source. *)
Lemma research_lists_append_only_witness :
  (exists state' batch source,
      step Script.degraded Script.cli_config n_search_recipes
        (initial_state Script.san_diego) = Ok state' /\
      web_research_results state' = ([] ++ [ batch ])%list /\
      sources_gathered state' = ([] ++ [ source ])%list /\
      length (web_research_results state') = 0 + 1 /\
      length (sources_gathered state') = 0 + 1) /\
  (exists state',
      step Script.healthy Script.cli_config n_find_stores Script.after_recipe
        = Ok state' /\
      web_research_results state' = [ Script.batch ] /\
      sources_gathered state' = [ PStr "* Thai curry : https://example.org/curry" ]) /\
  (exists state' batch source,
      run Script.healthy Script.san_diego Script.cli_config = Ok state' /\
      web_research_results state' = [ batch ] /\
      sources_gathered state' = [ source ]).
Proof.
  split; [|split].
  - exact (proj1 (research_lists_append_only Script.degraded Script.cli_config)
             (initial_state Script.san_diego)).
  - destruct (research_lists_append_only Script.healthy Script.cli_config)
      as [_ [Hlater _]].
    eexists. split; [vm_compute; reflexivity|].
    apply (Hlater n_find_stores Script.after_recipe); [discriminate|].
    vm_compute. reflexivity.
  - destruct (research_lists_append_only Script.healthy Script.cli_config)
      as [_ [_ [_ Hrun]]].
    eexists.
    destruct (Hrun Script.san_diego _ eq_refl) as [b [s [Hb Hs]]].
    exists b, s. split; [reflexivity|]. split; assumption.
Defined.

(** C5, as stated, fails: a run that sets the maximum to 0 explicitly gets
    three stores of the five valid ones, not the first 0 of them, because the
    value 0 is dropped at resolution and the default 3 applies. *)
Lemma zero_maximum_returns_three :
  lookup "max_store_recommendations" (configurable_of MoreCases.max_zero)
    = Some (CVal (PInt 0)) /\
  exists u,
    find_stores Script.healthy Script.after_recipe MoreCases.max_zero = Ok u /\
    upd_store_recommendations u
      = Some (PList [ Script.store "A"; Script.store "B"; Script.store "C" ]) /\
    upd_store_recommendations u
      <> Some (PList (firstn 0 (map Script.store Script.five_names))) /\
    ~ (length [ Script.store "A"; Script.store "B"; Script.store "C" ] <= 0).
Proof.
  split; [reflexivity|]. eexists.
  split; [vm_compute; reflexivity|]. split; [reflexivity|].
  split; [discriminate|]. simpl. lia.
Qed.

(** C5 (amended): for every list of stores that passes the validation of
    stage 3, when the maximum resolved from the configuration is a positive
    integer N, the stage returns, and stores in the state, exactly the first
    N elements of the validated list in their order, so never more than N.
    With no MAX_STORE_RECOMMENDATIONS variable set, N is the explicit value
    of the run when that is a positive integer, and the default 3 when the
    run gives no value or gives 0. *)
Theorem store_recommendations_capped (W : World) (config : option RunnableConfig)
    (state : MealPlanState) (llm : ChatModel) (sc content : string)
    (d : list (string * pyval)) (l : list pyval) :
  find_stores_query W state config
    = Ok (from_runnable_config (environ W) config, llm, sc) ->
  llm_invoke W llm (store_prompt sc)
    "Extract and format the store information as JSON:" = Ok content ->
  json_loads W content = Ok (PDict d) ->
  lookup "stores" d = Some (PList l) ->
  Forall (fun store => keys_present store_required_keys store = Ok true) l ->
  (forall p,
      max_store_recommendations (from_runnable_config (environ W) config)
        = CVal (PInt (Z.pos p)) ->
      exists u,
        find_stores W state config = Ok u /\
        upd_store_recommendations u = Some (PList (firstn (Pos.to_nat p) l)) /\
        store_recommendations (merge state u) = PList (firstn (Pos.to_nat p) l) /\
        length (firstn (Pos.to_nat p) l) <= Pos.to_nat p) /\
  (environ W "MAX_STORE_RECOMMENDATIONS" = None ->
   (forall p,
       lookup "max_store_recommendations" (configurable_of config)
         = Some (CVal (PInt (Z.pos p))) ->
       max_store_recommendations (from_runnable_config (environ W) config)
         = CVal (PInt (Z.pos p))) /\
   (lookup "max_store_recommendations" (configurable_of config) = None \/
    lookup "max_store_recommendations" (configurable_of config)
      = Some (CVal (PInt 0)) ->
    max_store_recommendations (from_runnable_config (environ W) config)
      = CVal (PInt 3))).
Proof.
  intros Hq Hreply Hjson Hl Hvalid. split.
  - intros p Hmax.
    exists (stores_update (PList (firstn (Pos.to_nat p) l))).
    split; [|split; [reflexivity|split; [reflexivity|apply firstn_le_length]]].
    rewrite (find_stores_on_list W config state llm sc content d l Hq Hreply Hjson Hl).
    rewrite (check_all_complete W l Hvalid). cbn [bind]. rewrite Hmax.
    reflexivity.
  - intros He. rewrite ConfigMore.max_store_recommendations_resolved.
    unfold raw_value, explicit.
    change (upper "max_store_recommendations") with "MAX_STORE_RECOMMENDATIONS".
    rewrite He. split.
    + intros p Hp. rewrite Hp. reflexivity.
    + intros [Hn | Hz]; [rewrite Hn|rewrite Hz]; reflexivity.
Qed.

(** With the explicit maximum 2 and five valid stores, exactly the first two
    are kept; with the explicit maximum 0 the resolved maximum is 3. *)
Lemma store_recommendations_capped_witness :
  (exists u,
      find_stores Script.healthy Script.after_recipe MoreCases.max_two = Ok u /\
      upd_store_recommendations u
        = Some (PList [ Script.store "A"; Script.store "B" ]) /\
      store_recommendations (merge Script.after_recipe u)
        = PList [ Script.store "A"; Script.store "B" ] /\
      length [ Script.store "A"; Script.store "B" ] <= 2) /\
  max_store_recommendations
    (from_runnable_config (environ Script.healthy) MoreCases.max_zero)
    = CVal (PInt 3).
Proof.
  split.
  - assert (Forall (fun store => keys_present store_required_keys store = Ok true)
              (map Script.store Script.five_names)) as Hv
      by (repeat constructor).
    destruct (store_recommendations_capped Script.healthy MoreCases.max_two
                Script.after_recipe _ _ Script.stores_text _
                (map Script.store Script.five_names)
                eq_refl eq_refl eq_refl eq_refl Hv) as [Hcap Hres].
    exact (Hcap 2%positive (proj1 (Hres eq_refl) 2%positive eq_refl)).
  - assert (Forall (fun store => keys_present store_required_keys store = Ok true)
              (map Script.store Script.five_names)) as Hv
      by (repeat constructor).
    destruct (store_recommendations_capped Script.healthy MoreCases.max_zero
                Script.after_recipe _ _ Script.stores_text _
                (map Script.store Script.five_names)
                eq_refl eq_refl eq_refl eq_refl Hv) as [_ Hres].
    exact (proj2 (Hres eq_refl) (or_intror eq_refl)).
Defined.

Section Handler.

Variable W : World.
Variable config : option RunnableConfig.


End Handler.



End StageLaws.
